(** * UniHelp: context selection, quick replies, model fallback, rate
      limiting and the conversation store

    A shallow embedding of the core of [app.py] and the properties its
    specification states about it.

    Conventions of the embedding.
    - A Python [str] is a list of Unicode code points ([list N]), so that
      [len] counts what Python counts.  Literals are written as UTF-8 text
      and decoded by [py].
    - A Python [int] is a [Z]; [len] is [Z.of_nat (length _)].
    - A [dict] whose iteration order the code relies on is an association
      list that keeps the position of a key on overwrite; the process-wide
      [defaultdict] of the rate limiter is a [gmap].
    - A Python [set] of strings is iterated in an order the language does
      not fix; the order is the section variable [set_iter].
    - [str.lower] is the section variable [lower]; the universal theorems
      hold for every such function, the concrete runs use [ascii_lower] on
      ASCII inputs.
    - Code that raises returns [Raise e]; code that talks to the model
      backend, the session state, the page or the history file threads a
      [World]. *)

From Stdlib Require Import ZArith NArith List String Ascii QArith Lia Permutation.
From stdpp Require Import base gmap list.
Import ListNotations.

(** ** Python strings *)

Abbreviation pystr := (list N).

(** UTF-8 decoding of a literal: [need] continuation bytes are still
    expected and [acc] holds the bits read so far. *)
Fixpoint utf8_go (s : string) (need : nat) (acc : N) : pystr :=
  match s with
  | EmptyString => []
  | String a s' =>
      let b := N_of_ascii a in
      match need with
      | O => if (b <? 128)%N then b :: utf8_go s' 0 0%N
             else if (b <? 224)%N then utf8_go s' 1 (b - 192)%N
             else if (b <? 240)%N then utf8_go s' 2 (b - 224)%N
             else utf8_go s' 3 (b - 240)%N
      | S O => (acc * 64 + (b - 128))%N :: utf8_go s' 0 0%N
      | S n => utf8_go s' n (acc * 64 + (b - 128))%N
      end
  end.

Definition py (s : string) : pystr := utf8_go s 0 0%N.
Arguments py _%_string.

Definition NL : N := 10%N.
Definition DQUOTE : N := 34%N.

(** [len(s)] *)
Definition len (s : pystr) : Z := Z.of_nat (length s).

Fixpoint str_eqb (a b : pystr) : bool :=
  match a, b with
  | [], [] => true
  | x :: a', y :: b' => (x =? y)%N && str_eqb a' b'
  | _, _ => false
  end.

(** [x in xs] for a list, tuple or set of strings. *)
Definition str_mem (x : pystr) (xs : list pystr) : bool :=
  existsb (str_eqb x) xs.

(** [str.isspace] of one character: the white space of [str.strip],
    [str.split] without argument and the pattern [\s]. *)
Definition isspace (c : N) : bool :=
  (((9 <=? c) && (c <=? 13)) || ((28 <=? c) && (c <=? 32))
   || (c =? 133) || (c =? 160) || (c =? 5760)
   || ((8192 <=? c) && (c <=? 8202))
   || (c =? 8232) || (c =? 8233) || (c =? 8239) || (c =? 8287)
   || (c =? 12288))%N.

Fixpoint lstrip (s : pystr) : pystr :=
  match s with
  | c :: s' => if isspace c then lstrip s' else s
  | [] => []
  end.

Definition rstrip (s : pystr) : pystr := rev (lstrip (rev s)).

(** [s.strip()] *)
Definition strip (s : pystr) : pystr := rstrip (lstrip s).

(** [s.startswith(p)] *)
Fixpoint startswith (p s : pystr) : bool :=
  match p, s with
  | [], _ => true
  | x :: p', y :: s' => (x =? y)%N && startswith p' s'
  | _ :: _, [] => false
  end.

(** [sub in s] for two strings. *)
Fixpoint contains (sub s : pystr) : bool :=
  startswith sub s ||
  match s with
  | [] => false
  | _ :: s' => contains sub s'
  end.

(** [s.split(c)] for a one-character separator [c]: never empty. *)
Fixpoint split_char (sep : N) (s : pystr) : list pystr :=
  match s with
  | [] => [[]]
  | c :: s' =>
      if (c =? sep)%N then [] :: split_char sep s'
      else match split_char sep s' with
           | w :: ws => (c :: w) :: ws
           | [] => [[c]]
           end
  end.

(** [s.split()]: the maximal runs of characters that are not white
    space. *)
Fixpoint words (s : pystr) : list pystr :=
  match s with
  | [] => []
  | c :: s' =>
      if isspace c then words s'
      else match s' with
           | [] => [[c]]
           | d :: _ =>
               if isspace d then [c] :: words s'
               else match words s' with
                    | w :: ws => (c :: w) :: ws
                    | [] => [[c]]
                    end
           end
  end.

(** [sep.join(parts)] *)
Fixpoint join (sep : pystr) (parts : list pystr) : pystr :=
  match parts with
  | [] => []
  | x :: rest =>
      match rest with
      | [] => x
      | _ :: _ => x ++ sep ++ join sep rest
      end
  end.

(** [s[:n]] for any integer [n]: a negative bound counts from the end. *)
Definition slice_to (s : pystr) (n : Z) : pystr :=
  if (0 <=? n)%Z then firstn (Z.to_nat n) s
  else firstn (Z.to_nat (len s + n)) s.

(** [l[-n:]] for a list and [n > 0]. *)
Definition last_n {A} (n : nat) (l : list A) : list A :=
  skipn (length l - n) l.

(** Truth value of a string and of a list. *)
Definition truthy {A} (l : list A) : bool :=
  match l with [] => false | _ :: _ => true end.

(** Truth value of a value that is [None] or a string. *)
Definition truthy_opt (o : option pystr) : bool :=
  match o with Some s => truthy s | None => false end.

(** [str.lower] on the Basic Latin block, where it maps [A-Z] to [a-z]
    and nothing else. *)
Definition ascii_lower (s : pystr) : pystr :=
  map (fun c => if ((65 <=? c) && (c <=? 90))%N then (c + 32)%N else c) s.

(** An order of iteration for a set given by its elements. *)
Definition insertion_order (l : list pystr) : list pystr := l.

(** ** Exceptions *)

Inductive exn : Type :=
  | IndexError
  | RuntimeError (msg : pystr)
  | BackendError (msg : pystr).

Inductive result (A : Type) : Type :=
  | Ok (a : A)
  | Raise (e : exn).
Arguments Ok {A} a.
Arguments Raise {A} e.

Definition rbind {A B} (r : result A) (k : A -> result B) : result B :=
  match r with
  | Ok a => k a
  | Raise e => Raise e
  end.

(** ** Configuration (APP_CONFIG) *)

Definition MODEL_CANDIDATES : list pystr :=
  [py "llama-3.1-8b-instant"; py "llama-3.3-70b-versatile"].
Definition QA_TEMPERATURE : Q := 0.2%Q.
Definition EMAIL_TEMPERATURE : Q := 0.3%Q.
Definition MAX_QUESTION_LENGTH : Z := 500.
Definition RATE_LIMIT_REQUESTS : Z := 10.
Definition RATE_LIMIT_WINDOW_SECONDS : Z := 60.

(** ** Context selection: extract_relevant_sections *)

(** The table [keyword_sections]: a dict from keyword tuples to a section
    label, iterated in the order it is written. *)
Definition keyword_sections : list (list pystr * pystr) :=
  [ ([py "inscription"; py "inscri"; py "réinscription"; py "enroll";
      py "documents obligatoires"; py "frais inscription"], py "SECTION 1");
    ([py "certificat"; py "attestation"; py "relevé"; py "notes";
      py "scolarité"; py "certificate"], py "SECTION 2");
    ([py "bourse"; py "aide financière"; py "prêt"; py "scholarship";
      py "financial aid"; py "mobilité"], py "SECTION 3");
    ([py "stage"; py "internship"; py "convention"; py "entreprise";
      py "rapport"; py "soutenance"], py "SECTION 4");
    ([py "absence"; py "justification"; py "assiduité"; py "présence";
      py "retard"], py "SECTION 5");
    ([py "examen"; py "rattrapage"; py "évaluation"; py "test"; py "exam";
      py "compensation"; py "note"; py "fraude"], py "SECTION 6");
    ([py "paiement"; py "frais"; py "tarif"; py "remboursement";
      py "payment"; py "fee"; py "échéance"], py "SECTION 7");
    ([py "calendrier"; py "date"; py "semestre"; py "vacances";
      py "calendar"; py "rentrée"], py "SECTION 8");
    ([py "règlement"; py "discipline"; py "sanction"; py "interdiction";
      py "droits"; py "devoirs"; py "regulation"], py "SECTION 9");
    ([py "bibliothèque"; py "restaurant"; py "cantine"; py "logement";
      py "résidence"; py "sport"; py "library"; py "service"],
     py "SECTION 10");
    ([py "contact"; py "email"; py "téléphone"; py "urgence"; py "service";
      py "bureau"; py "scolarité"], py "SECTION 11") ].

(** The fallback set of labels. *)
Definition default_sections : list pystr :=
  [py "SECTION 1"; py "SECTION 2"; py "SECTION 9"].

(** [s.add(x)] on a set kept as the list of its elements. *)
Definition set_add (x : pystr) (s : list pystr) : list pystr :=
  if str_mem x s then s else s ++ [x].

(** The first loop: the labels of the keyword tuples one of whose
    keywords occurs in the lowered question. *)
Definition matched_sections (question_lower : pystr) : list pystr :=
  fold_left
    (fun acc entry =>
       if existsb (fun kw => contains kw question_lower) (fst entry)
       then set_add (snd entry) acc else acc)
    keyword_sections [].

(** [relevant_sections] once the fallback has been applied. *)
Definition relevant_sections (question_lower : pystr) : list pystr :=
  let found := matched_sections question_lower in
  if truthy found then found else default_sections.

(** [d[k] = v] on a dict: a key already present keeps its place. *)
Fixpoint dict_set (d : list (pystr * pystr)) (k v : pystr)
  : list (pystr * pystr) :=
  match d with
  | [] => [(k, v)]
  | (k', v') :: d' =>
      if str_eqb k' k then (k, v) :: d' else (k', v') :: dict_set d' k v
  end.

Fixpoint dict_get (d : list (pystr * pystr)) (k : pystr) : option pystr :=
  match d with
  | [] => None
  | (k', v') :: d' => if str_eqb k' k then Some v' else dict_get d' k
  end.

(** The label of a header line:
    [line.split(':')[0].strip() if ':' in line
     else line.split()[0] + ' ' + line.split()[1]]. *)
Definition header_label (line : pystr) : result pystr :=
  if contains (py ":") line then
    match split_char 58%N line with
    | w :: _ => Ok (strip w)
    | [] => Raise IndexError
    end
  else
    match nth_error (words line) 0 with
    | None => Raise IndexError
    | Some w0 =>
        match nth_error (words line) 1 with
        | None => Raise IndexError
        | Some w1 => Ok (w0 ++ py " " ++ w1)
        end
    end.

Record parse_state : Type := mk_parse_state {
  sections_dict : list (pystr * pystr);
  current_section : option pystr;
  current_content : list pystr
}.

Definition save_section (st : parse_state) : list (pystr * pystr) :=
  match current_section st with
  | Some label =>
      if truthy label
      then dict_set (sections_dict st) label
             (join [NL] (current_content st))
      else sections_dict st
  | None => sections_dict st
  end.

(** One turn of the loop over the lines of the corpus. *)
Definition parse_line (st : parse_state) (line : pystr)
  : result parse_state :=
  if startswith (py "SECTION ") line then
    let d := save_section st in
    rbind (header_label line) (fun label =>
      Ok (mk_parse_state d (Some label) [line]))
  else if truthy_opt (current_section st) then
    Ok (mk_parse_state (sections_dict st) (current_section st)
          (current_content st ++ [line]))
  else Ok st.

Fixpoint parse_lines (st : parse_state) (lines : list pystr)
  : result parse_state :=
  match lines with
  | [] => Ok st
  | line :: rest => rbind (parse_line st line) (fun st' => parse_lines st' rest)
  end.

(** The dict of sections of a corpus, with the last section saved. *)
Definition parse_sections (full_context : pystr)
  : result (list (pystr * pystr)) :=
  rbind (parse_lines (mk_parse_state [] None []) (split_char NL full_context))
    (fun st =>
       Ok (if truthy_opt (current_section st) && truthy (current_content st)
           then dict_set (sections_dict st)
                  (match current_section st with Some l => l | None => [] end)
                  (join [NL] (current_content st))
           else sections_dict st)).

Record budget : Type := mk_budget {
  extracted : list pystr;
  total_chars : Z
}.

(** The inner loop over [sections_dict.items()] for one label; the
    [break] ends it. *)
Fixpoint scan_sections (section_key : pystr) (max_chars : Z)
    (items : list (pystr * pystr)) (b : budget) : budget :=
  match items with
  | [] => b
  | (doc_section, content) :: rest =>
      if contains section_key doc_section then
        if (total_chars b + len content <? max_chars)%Z then
          scan_sections section_key max_chars rest
            (mk_budget (extracted b ++ [content])
                       (total_chars b + len content)%Z)
        else
          let remaining := (max_chars - total_chars b)%Z in
          if (500 <? remaining)%Z then
            mk_budget (extracted b ++
                         [slice_to content remaining ++ NL :: py "..."])
                      (total_chars b)
          else b
      else scan_sections section_key max_chars rest b
  end.

(** The outer loop over the relevant labels, in the order they come. *)
Definition collect_sections (keys : list pystr) (max_chars : Z)
    (items : list (pystr * pystr)) : budget :=
  fold_left (fun b key => scan_sections key max_chars items b)
            keys (mk_budget [] 0%Z).

Section Selector.

(** [str.lower]. *)
Variable lower : pystr -> pystr.
(** The order in which a set is iterated, from its elements. *)
Variable set_iter : list pystr -> list pystr.

Definition extract_relevant_sections
    (full_context user_question : pystr) (max_chars : Z) : result pystr :=
  let question_lower := lower user_question in
  let relevant := relevant_sections question_lower in
  rbind (parse_sections full_context) (fun sections =>
    let b := collect_sections (set_iter relevant) max_chars sections in
    if truthy (extracted b) then
      let res := join [NL; NL] (extracted b) in
      Ok (if truthy res then res else slice_to full_context max_chars)
    else Ok (slice_to full_context max_chars)).

End Selector.

(** ** The world the application runs in *)

Inductive Lang : Type := FR | EN | TN.

(** The value of [st.session_state.language]: the radio button offers
    these three codes and the default is ["FR"]. *)
Definition lang_code (l : Lang) : pystr :=
  match l with
  | FR => py "FR"
  | EN => py "EN"
  | TN => py "TN"
  end.

(** One record of the chat history. *)
Record Turn : Type := mk_turn {
  timestamp : pystr;
  turn_conversation_id : pystr;
  question : pystr;
  answer : pystr
}.

Record Email : Type := mk_email {
  email_timestamp : pystr;
  email_type : pystr;
  email_content : pystr
}.

(** [st.session_state] once [init_session_state] has run. *)
Record SessionState : Type := mk_session {
  session_id : option pystr;
  language : Lang;
  chat_history : list Turn;
  current_conversation : list Turn;
  conversation_id : pystr;
  email_history : list Email;
  current_email : option pystr;
  dark_mode : bool
}.

Record Message : Type := mk_message {
  msg_role : pystr;
  msg_content : pystr
}.

(** The arguments of one [client.chat.completions.create] call. *)
Record Request : Type := mk_request {
  req_model : pystr;
  req_temperature : Q;
  req_messages : list Message
}.

(** [completion.choices]: each choice carries [message.content], which
    may be [None]. *)
Record Choice : Type := mk_choice { message_content : option pystr }.
Abbreviation Completion := (list Choice).

(** The backend behind a client: its answer to a request may depend on
    the requests that came before. *)
Abbreviation Client := (list Request -> Request -> result Completion).

Inductive ui_event : Type :=
  | UiMarkdown (text : pystr)
  | UiWarning (text : pystr)
  | UiError (text : pystr).

Record World : Type := mk_world {
  session : SessionState;
  (** [time.time()], in whole time units *)
  clock : Z;
  (** the requests sent to the backend, oldest first, each with the
      time it was sent at *)
  requests : list (Z * Request);
  (** the turns stored in HISTORY_CHAT_FILE *)
  chat_file : list Turn;
  (** whether writing the history file succeeds *)
  disk_ok : bool;
  (** what has been written to the page, oldest first *)
  page : list ui_event;
  (** [_rate_limit_storage] *)
  rate_limit_storage : gmap pystr (list Z)
}.

Definition set_session (s : SessionState) (w : World) : World :=
  mk_world s (clock w) (requests w) (chat_file w) (disk_ok w) (page w)
           (rate_limit_storage w).

Definition set_clock (t : Z) (w : World) : World :=
  mk_world (session w) t (requests w) (chat_file w) (disk_ok w) (page w)
           (rate_limit_storage w).

Definition set_requests (r : list (Z * Request)) (w : World) : World :=
  mk_world (session w) (clock w) r (chat_file w) (disk_ok w) (page w)
           (rate_limit_storage w).

Definition set_chat_file (f : list Turn) (w : World) : World :=
  mk_world (session w) (clock w) (requests w) f (disk_ok w) (page w)
           (rate_limit_storage w).

Definition set_page (p : list ui_event) (w : World) : World :=
  mk_world (session w) (clock w) (requests w) (chat_file w) (disk_ok w) p
           (rate_limit_storage w).

Definition set_rate_limit_storage (m : gmap pystr (list Z)) (w : World)
  : World :=
  mk_world (session w) (clock w) (requests w) (chat_file w) (disk_ok w)
           (page w) m.

(** Computations that read and change the world and may raise. *)
Definition M (A : Type) : Type := World -> result A * World.

Definition ret {A} (a : A) : M A := fun w => (Ok a, w).

Definition raise {A} (e : exn) : M A := fun w => (Raise e, w).

Definition bind {A B} (m : M A) (k : A -> M B) : M B :=
  fun w =>
    match m w with
    | (Ok a, w') => k a w'
    | (Raise e, w') => (Raise e, w')
    end.

(** [try: m  except Exception as e: h e] *)
Definition try_except {A} (m : M A) (h : exn -> M A) : M A :=
  fun w =>
    match m w with
    | (Ok a, w') => (Ok a, w')
    | (Raise e, w') => h e w'
    end.

Definition lift {A} (r : result A) : M A := fun w => (r, w).

Definition modify (f : World -> World) : M unit := fun w => (Ok tt, f w).

Notation "'let*' x ':=' m 'in' k" := (bind m (fun x => k))
  (at level 10, x name, m at level 100, k at level 200).

(** [st.markdown], [st.warning], [st.error] *)
Definition st_show (e : ui_event) : M unit :=
  modify (fun w => set_page (page w ++ [e]) w).

(** [str(error)] *)
Definition exn_text (e : exn) : pystr :=
  match e with
  | IndexError => py "list index out of range"
  | RuntimeError msg => msg
  | BackendError msg => msg
  end.

(** ** Localised texts: LANGUAGES and get_text *)

(** The entries of [LANGUAGES] under the keys that the functions below
    look up.  The French table has no ["rate_limit"] entry. *)
Definition LANGUAGES (l : Lang) : list (pystr * pystr) :=
  match l with
  | FR =>
      [ (py "error_docs", py "Fichier documents.txt introuvable.");
        (py "warning_processing", py "Traitement des documents...");
        (py "not_found",
         py "Cette information n'est pas disponible dans les documents officiels.") ]
  | EN =>
      [ (py "error_docs", py "documents.txt file not found.");
        (py "warning_processing", py "Processing documents...");
        (py "not_found",
         py "This information is not available in the official documents.");
        (py "rate_limit", py "⏱️ Rate limit reached. Please wait.") ]
  | TN =>
      [ (py "error_docs", py "Fichier documents.txt mahouch mawjoud.");
        (py "warning_processing", py "9a3ed n3arej fel documents...");
        (py "not_found",
         py "Hedhi el ma3louma mawjoudech fel documents er-rasmiya.");
        (py "rate_limit", py "⏱️ Estanna chwaya, wselt lel limite.") ]
  end.

(** [LANGUAGES[lang].get(key, key)] *)
Definition get_text (key : pystr) : M pystr :=
  fun w =>
    (Ok (match dict_get (LANGUAGES (language (session w))) key with
         | Some text => text
         | None => key
         end), w).

(** ** The model invoker: chat_completion_with_fallback *)

(** [client.chat.completions.create(...)]: the request is sent, logged
    with the time of sending, and answered or refused by the backend. *)
Definition create (client : Client) (req : Request) : M Completion :=
  fun w =>
    (client (map snd (requests w)) req,
     set_requests (requests w ++ [(clock w, req)]) w).

(** [x or ""] for [x] a string or [None]. *)
Definition or_empty (o : option pystr) : pystr :=
  match o with
  | Some s => if truthy s then s else []
  | None => []
  end.

(** The body of the [try]: one request, then
    [completion.choices[0].message.content or ""], stripped. *)
Definition attempt (client : Client) (temperature : Q)
    (messages : list Message) (model_name : pystr) : M pystr :=
  let* completion :=
    create client (mk_request model_name temperature messages) in
  match completion with
  | [] => raise IndexError
  | choice :: _ => ret (strip (or_empty (message_content choice)))
  end.

(** The loop over the candidates followed by the two [raise]. *)
Fixpoint fallback_loop (client : Client) (temperature : Q)
    (messages : list Message) (candidates : list pystr)
    (last_error : option exn) : M pystr :=
  match candidates with
  | [] =>
      match last_error with
      | Some error => raise error
      | None => raise (RuntimeError (py "No Groq models available."))
      end
  | model_name :: rest =>
      try_except (attempt client temperature messages model_name)
        (fun error =>
           fallback_loop client temperature messages rest (Some error))
  end.

Definition chat_completion_with_fallback (client : Client)
    (temperature : Q) (messages : list Message) : M pystr :=
  fallback_loop client temperature messages MODEL_CANDIDATES None.

(** ** Quick replies: quick_conversation_reply *)

(** The maximal runs of characters that satisfy [p]:
    [re.findall] of a character class repeated with [+]. *)
Fixpoint runs (p : N -> bool) (s : pystr) : list pystr :=
  match s with
  | [] => []
  | c :: s' =>
      if p c then
        match s' with
        | [] => [[c]]
        | d :: _ =>
            if p d then
              match runs p s' with
              | w :: ws => (c :: w) :: ws
              | [] => [[c]]
              end
            else [c] :: runs p s'
        end
      else runs p s'
  end.

(** [re.sub(r"\s+", " ", s)] *)
Fixpoint collapse_spaces (s : pystr) : pystr :=
  match s with
  | [] => []
  | c :: s' =>
      if isspace c then
        match s' with
        | [] => [32%N]
        | d :: _ =>
            if isspace d then collapse_spaces s'
            else 32%N :: collapse_spaces s'
        end
      else c :: collapse_spaces s'
  end.

(** The class [[a-z0-9']]. *)
Definition token_char (c : N) : bool :=
  (((97 <=? c) && (c <=? 122)) || ((48 <=? c) && (c <=? 57)) || (c =? 39))%N.

(** [set(l)] and [a & b] on sets kept as lists of their elements. *)
Definition set_of_list (l : list pystr) : list pystr :=
  fold_left (fun acc x => set_add x acc) l [].

Definition set_inter (a b : list pystr) : list pystr :=
  filter (fun x => is_true (str_mem x b)) a.

Definition greetings : list pystr :=
  [py "salut"; py "bonjour"; py "bonsoir"; py "hello"; py "hi"; py "hey";
   py "salam"; py "slm"; py "aslema"; py "asslema"; py "ahla"; py "marhba";
   py "mar7ba"].

Definition thanks : list pystr :=
  [py "merci"; py "thanks"; py "thank you"; py "chokran"; py "choukrane";
   py "bravo"].

Definition greeting_reply (language : pystr) : pystr :=
  if str_eqb language (py "TN") then
    py "Asslema 👋 Ahlan bik! Nجم n3awnek fi les infos mta3 l-jam3a. "
    ++ py "Exemples: `nheb na3ref noteti`, `kifech na3mel inscription`, "
    ++ py "`chnowa documents mta3 bourse` 🙂"
  else if str_eqb language (py "EN") then
    py "Hi 👋 Welcome! I can help with university info. "
    ++ py "Try: `I want to check my grades`, `how to enroll`, "
    ++ py "`scholarship documents` 🙂"
  else
    py "Salut 👋 Je peux t’aider avec les infos universitaires. "
    ++ py "Exemples: `je veux connaître mes notes`, `comment faire l'inscription`, "
    ++ py "`documents pour la bourse` 🙂".

Definition thanks_reply (language : pystr) : pystr :=
  if str_eqb language (py "TN") then
    py "3la rassi 😊 Ken theb, nجم n3awnek zeda b inscription, notes, bourse, stage..."
  else if str_eqb language (py "EN") then
    py "You're welcome 😊 If you want, I can also help with enrollment, grades, scholarships, or internships."
  else
    py "Avec plaisir 😊 Si tu veux, je peux aussi t’aider pour inscription, notes, bourse ou stage.".

(** [tokens] and the two tests on them. *)
Definition tokens_of (text : pystr) : list pystr :=
  set_of_list (runs token_char text).

Definition is_greeting (text : pystr) : bool :=
  truthy (set_inter (tokens_of text) greetings) || str_mem text greetings.

Definition is_thanks (text : pystr) : bool :=
  truthy (set_inter (tokens_of text) thanks) || str_mem text thanks.

(** ** Input validation: validate_question *)

(** [re.search(r'(.)\1{10,}', s)]: some character other than a line
    feed occurs eleven times in a row.  [prev] is the character of the
    run being read and [count] its length so far. *)
Fixpoint repeated_run (prev : option N) (count : nat) (s : pystr) : bool :=
  match s with
  | [] => false
  | c :: s' =>
      if (c =? NL)%N then repeated_run None 0 s'
      else
        let count' :=
          match prev with
          | Some p => if (p =? c)%N then S count else 1
          | None => 1
          end in
        if (11 <=? count')%nat then true else repeated_run (Some c) count' s'
  end.

Definition validate_question (question : pystr) : bool :=
  if negb (truthy question) || (len (strip question) <? 3)%Z then false
  else if (MAX_QUESTION_LENGTH <? len question)%Z then false
  else if repeated_run None 0 question then false
  else true.

(** ** The rate limiter: rate_limit *)

(** [st.session_state.get("session_id", "anonymous")] *)
Definition rate_user_id (s : SessionState) : pystr :=
  match session_id s with
  | Some sid => sid
  | None => py "anonymous"
  end.

(** The timestamps of a user that are still inside the window at time
    [now]. *)
Definition prune (now : Z) (stamps : list Z) : list Z :=
  filter (fun ts => (now - ts < RATE_LIMIT_WINDOW_SECONDS)%Z) stamps.

(** The wrapper that [rate_limit func] returns, applied to the arguments
    of [func]: [None] is the value returned on denial. *)
Definition rate_limit {A} (func : M A) : M (option A) :=
  fun w =>
    let now := clock w in
    let user_id := rate_user_id (session w) in
    let kept := prune now (rate_limit_storage w !!! user_id) in
    let w1 := set_rate_limit_storage (<[user_id := kept]> (rate_limit_storage w)) w in
    if (RATE_LIMIT_REQUESTS <=? Z.of_nat (length kept))%Z then
      (let* text := get_text (py "rate_limit") in
       let* _ := st_show (UiWarning text) in
       ret None) w1
    else
      (let* r := func in ret (Some r))
        (set_rate_limit_storage
           (<[user_id := kept ++ [now]]> (rate_limit_storage w1)) w1).

(** ** The conversation store *)

(** [save_chat_history]: the whole history is written to the file; an
    [IOError] leaves the file as it was and shows a warning. *)
Definition save_chat_history : M unit :=
  fun w =>
    if disk_ok w then (Ok tt, set_chat_file (chat_history (session w)) w)
    else st_show (UiWarning (py "Could not save chat history.")) w.

Definition set_chat_history (h : list Turn) (s : SessionState)
  : SessionState :=
  mk_session (session_id s) (language s) h (current_conversation s)
             (conversation_id s) (email_history s) (current_email s)
             (dark_mode s).

Definition set_current_conversation (c : list Turn) (s : SessionState)
  : SessionState :=
  mk_session (session_id s) (language s) (chat_history s) c
             (conversation_id s) (email_history s) (current_email s)
             (dark_mode s).

Definition set_conversation_id (i : pystr) (s : SessionState)
  : SessionState :=
  mk_session (session_id s) (language s) (chat_history s)
             (current_conversation s) i (email_history s) (current_email s)
             (dark_mode s).

Definition modify_session (f : SessionState -> SessionState) : M unit :=
  modify (fun w => set_session (f (session w)) w).

(** [now_iso] is [datetime.now().isoformat()]. *)
Definition add_to_chat_history (now_iso question answer : pystr) : M unit :=
  let* entry := (fun w =>
    (Ok (mk_turn now_iso (conversation_id (session w)) question answer), w)) in
  let* _ := modify_session (fun s =>
    set_current_conversation (current_conversation s ++ [entry]) s) in
  let* _ := modify_session (fun s =>
    set_chat_history (chat_history s ++ [entry]) s) in
  save_chat_history.

(** [now_stamp] is [datetime.now().strftime("%Y%m%d_%H%M%S")]. *)
Definition start_new_conversation (now_stamp : pystr) : M unit :=
  let* _ := modify_session (set_conversation_id now_stamp) in
  modify_session (set_current_conversation []).

Definition clear_all_history : M unit :=
  let* _ := modify_session (set_chat_history []) in
  let* _ := modify_session (set_current_conversation []) in
  save_chat_history.

Definition delete_conversation_by_id (conversation_id' : pystr) : M unit :=
  let* _ := modify_session (fun s =>
    set_chat_history
      (filter (fun entry =>
                 is_true (negb (str_eqb (turn_conversation_id entry)
                                        conversation_id')))
              (chat_history s)) s) in
  let* _ := modify_session (fun s =>
    if str_eqb (conversation_id s) conversation_id'
    then set_current_conversation [] s else s) in
  save_chat_history.

(** ** Answering a question: ask_rag_question and the page *)

Section App.

(** [str.lower]. *)
Variable lower : pystr -> pystr.
(** The order in which a set is iterated, from its elements. *)
Variable set_iter : list pystr -> list pystr.

(** [text]: the question stripped, lowered, its white space collapsed. *)
Definition normalized (question : pystr) : pystr :=
  collapse_spaces (lower (strip question)).

Definition quick_conversation_reply (question language : pystr)
  : option pystr :=
  let text := normalized question in
  if negb (truthy text) then None
  else if is_greeting text then Some (greeting_reply language)
  else if is_thanks text then Some (thanks_reply language)
  else None.

Definition system_prompt (lang fallback_msg : pystr) : pystr :=
  if str_eqb lang (py "TN") then
    py "Enti UniHelp, msa3ed jami3i barcha wadoud w fi el khedma (logha: "
    ++ lang ++ py "). "
    ++ py "Tsa3ed el tolba fi sou2elethom el jami3iya b tari9a tabi3iya w wadouda. "
    ++ py "Jaweb b tari9a wedha w mafhouma. Esta3mel emojis ki ylazem 😊. "
    ++ py "E3tamed 3al context er-rasmi bech ta3ti ma3loumet sa7i7a. "
    ++ py "Ken tetdhaker 7ajet 9dima mel conversation, matredhech bech tarbethom. "
    ++ py "Ken el ma3louma mawjoudech fel context, 9oul b el adab: "
    ++ [DQUOTE] ++ fallback_msg ++ [DQUOTE] ++ py " "
    ++ py "Koun mo5taser ama kemel fel ijeba."
  else if str_eqb lang (py "EN") then
    py "You are UniHelp, a friendly and helpful university assistant (language: "
    ++ lang ++ py "). "
    ++ py "You help students with their university questions in a conversational and natural way. "
    ++ py "Answer warmly, clearly and accessibly. Use emojis when appropriate 😊. "
    ++ py "Base yourself ONLY on the official context provided to give accurate information. "
    ++ py "If you remember previous exchanges in the conversation, don't hesitate to make the connection. "
    ++ py "If the information is not in the context, politely say: "
    ++ [DQUOTE] ++ fallback_msg ++ [DQUOTE] ++ py " "
    ++ py "Be concise but complete in your answers."
  else
    py "Tu es UniHelp, un assistant universitaire sympathique et serviable (langue: "
    ++ lang ++ py "). "
    ++ py "Tu aides les étudiants avec leurs questions universitaires de manière conversationnelle et naturelle. "
    ++ py "Réponds de façon chaleureuse, claire et accessible. Utilise des emojis quand c'est approprié 😊. "
    ++ py "Base-toi UNIQUEMENT sur le contexte officiel fourni pour donner des informations précises. "
    ++ py "Si tu te souviens d'échanges précédents dans la conversation, n'hésite pas à faire le lien. "
    ++ py "Si l'information n'est pas dans le contexte, dis poliment: "
    ++ [DQUOTE] ++ fallback_msg ++ [DQUOTE] ++ py " "
    ++ py "Sois concis mais complet dans tes réponses.".

Definition user_prompt (relevant_context user_question : pystr) : pystr :=
  py "Context universitaire:" ++ [NL] ++ relevant_context ++ [NL; NL]
  ++ py "Question: " ++ user_question.

(** [conversation_history] is a list of messages; [None] and the
    empty list take the same branch of [if conversation_history:]. *)
Definition ask_rag_question (client : Client)
    (documents_context user_question lang : pystr)
    (conversation_history : list Message) : M pystr :=
  let quick_reply := quick_conversation_reply user_question lang in
  let generate : M pystr :=
    let* fallback_msg := get_text (py "not_found") in
    let* relevant_context :=
      lift (extract_relevant_sections lower set_iter
              documents_context user_question 4000) in
    let messages :=
      [mk_message (py "system") (system_prompt lang fallback_msg)]
      ++ (if truthy conversation_history
          then last_n 6 conversation_history else [])
      ++ [mk_message (py "user")
            (user_prompt relevant_context user_question)] in
    let* answer :=
      chat_completion_with_fallback client QA_TEMPERATURE messages in
    ret (if truthy answer then answer else fallback_msg) in
  match quick_reply with
  | Some reply => if truthy reply then ret reply else generate
  | None => generate
  end.

(** The messages built from [current_conversation[-3:]]. *)
Definition conv_history_of (turns : list Turn) : list Message :=
  flat_map (fun entry =>
              [mk_message (py "user") (question entry);
               mk_message (py "assistant") (answer entry)])
           (last_n 3 turns).

(** The block of [main] that handles the value of the chat input: the
    question typed, or [None].  [st.rerun()] ends the run of the
    script, after the turn has been recorded. *)
Definition main_process_question (client : Client)
    (documents_context : pystr) (chat_input : option pystr)
    (now_iso : pystr) : M unit :=
  match chat_input with
  | None => ret tt
  | Some question_text =>
      if negb (truthy question_text) then ret tt
      else if negb (truthy documents_context) then
        let* text := get_text (py "error_docs") in
        st_show (UiError (py "⚠️ " ++ text))
      else
        let* _ := st_show (UiMarkdown question_text) in
        let* _ := get_text (py "warning_processing") in
        try_except
          (let* conv_history := (fun w =>
             (Ok (conv_history_of (current_conversation (session w))), w)) in
           let* lang := (fun w => (Ok (lang_code (language (session w))), w)) in
           let* rag_answer :=
             ask_rag_question client documents_context
               (strip question_text) lang conv_history in
           let* _ := st_show (UiMarkdown rag_answer) in
           add_to_chat_history now_iso (strip question_text) rag_answer)
          (fun error => st_show (UiError (py "❌ Error: " ++ exn_text error)))
  end.

End App.

(** ** Runs of the application *)

(** The operations of the conversation store, with the reading of the
    clock each one takes. *)
Inductive store_op : Type :=
  | OpAppend (now_iso question answer : pystr)
  | OpStartNew (now_stamp : pystr)
  | OpDelete (conversation_id' : pystr)
  | OpClearAll.

Definition run_op (op : store_op) : M unit :=
  match op with
  | OpAppend now_iso q a => add_to_chat_history now_iso q a
  | OpStartNew now_stamp => start_new_conversation now_stamp
  | OpDelete cid => delete_conversation_by_id cid
  | OpClearAll => clear_all_history
  end.

(** The world after a sequence of operations. *)
Fixpoint run_ops (ops : list store_op) (w : World) : World :=
  match ops with
  | [] => w
  | op :: rest => run_ops rest (snd (run_op op w))
  end.

(** The gated function called once at each of the times [ts]: the
    results, in order, and the world at the end. *)
Fixpoint calls_at {A} (func : M A) (ts : list Z) (w : World)
  : list (result (option A)) * World :=
  match ts with
  | [] => ([], w)
  | t :: rest =>
      let r := rate_limit func (set_clock t w) in
      let rs := calls_at func rest (snd r) in
      (fst r :: fst rs, snd rs)
  end.

(** A function that leaves the limiter alone: it changes neither the
    stored timestamps nor the identity of the session. *)
Definition limiter_frame {A} (func : M A) : Prop :=
  forall w,
    rate_limit_storage (snd (func w)) = rate_limit_storage w /\
    rate_user_id (session (snd (func w))) = rate_user_id (session w).

(** What one attempt on a candidate yields when the backend has already
    received [log]. *)
Definition attempt_outcome (client : Client) (log : list Request)
    (req : Request) : result pystr :=
  match client log req with
  | Ok [] => Raise IndexError
  | Ok (choice :: _) => Ok (strip (or_empty (message_content choice)))
  | Raise e => Raise e
  end.

Definition requests_for (temperature : Q) (messages : list Message)
    (models : list pystr) : list Request :=
  map (fun m => mk_request m temperature messages) models.



(** The invariant of the store: the turns on display are in the history
    and all carry the active conversation id. *)
Definition store_inv (s : SessionState) : Prop :=
  (forall t, t ∈ current_conversation s -> t ∈ chat_history s) /\
  (forall t, t ∈ current_conversation s ->
             turn_conversation_id t = conversation_id s).

(** A result of the gated function that is not the denial. *)
Definition allowed {A} (r : result (option A)) : Prop := r <> Ok None.

(** What the gate does in one call, in the words of its contract: the
    stored timestamps are pruned; below the threshold the new timestamp
    is recorded and the function runs; otherwise the call is denied,
    with a warning on the page, nothing recorded and nothing raised. *)
Definition gate_spec {A} (func : M A) (w : World) : Prop :=
  let now := clock w in
  let user_id := rate_user_id (session w) in
  let kept := prune now (rate_limit_storage w !!! user_id) in
  if decide (Z.of_nat (length kept) < RATE_LIMIT_REQUESTS)%Z then
    rate_limit func w =
    (let* r := func in ret (Some r))
      (set_rate_limit_storage
         (<[user_id := kept ++ [now]]> (rate_limit_storage w)) w)
  else
    exists text,
      rate_limit func w =
      (Ok None,
       set_page (page w ++ [UiWarning text])
         (set_rate_limit_storage
            (<[user_id := kept]> (rate_limit_storage w)) w)).

(** ** Concrete worlds and backends for the runs below *)

(** A fresh French session as [init_session_state] leaves it when there
    is no history file. *)
Definition fresh_session : SessionState :=
  mk_session (Some (py "3f2a9c0d1b7e4a65")) FR [] [] (py "20260101_090000")
             [] None false.

Definition fresh_world : World :=
  mk_world fresh_session 0 [] [] true [] ∅.

(** A backend that answers every request with the same text. *)
Definition echo_client : Client :=
  fun _ _ => Ok [mk_choice (Some (py "Voir le service de scolarité."))].

(** A backend whose first model is down and whose second answers. *)
Definition second_model_client : Client :=
  fun _ req =>
    if str_eqb (req_model req) (py "llama-3.1-8b-instant")
    then Raise (BackendError (py "model overloaded"))
    else Ok [mk_choice (Some (py " Bonjour "))].

(** The errors of the candidates when every one of them fails, the
    backend having received [log] before the first: [None] as soon as
    one succeeds. *)
Fixpoint failures (client : Client) (temperature : Q)
    (messages : list Message) (log : list Request)
    (candidates : list pystr) : option (list exn) :=
  match candidates with
  | [] => Some []
  | m :: rest =>
      let req := mk_request m temperature messages in
      match attempt_outcome client log req with
      | Raise e =>
          match failures client temperature messages (log ++ [req]) rest with
          | Some errs => Some (e :: errs)
          | None => None
          end
      | Ok _ => None
      end
  end.

(** The log entries of one request per model, all sent at time [t]. *)
Definition sent_at (t : Z) (temperature : Q) (messages : list Message)
    (models : list pystr) : list (Z * Request) :=
  map (fun m => (t, mk_request m temperature messages)) models.

Definition ten_stamps : list Z := [0; 5; 10; 15; 20; 25; 30; 35; 40; 59]%Z.

Definition small_corpus : pystr :=
  py "SECTION 1: Inscription en ligne avant le 15 septembre." ++ [NL]
  ++ py "SECTION 4: Internship rules require a signed convention.".

(** A corpus one of whose lines is the section marker alone. *)
Definition bare_header_corpus : pystr :=
  py "Bienvenue" ++ [NL] ++ py "SECTION " ++ [NL] ++ py "1: Inscription".

(** A corpus whose three default sections are each longer than the
    budget. *)
Definition long_corpus : pystr :=
  py "SECTION 1: " ++ repeat 97%N 5000 ++ [NL]
  ++ py "SECTION 2: " ++ repeat 98%N 5000 ++ [NL]
  ++ py "SECTION 9: " ++ repeat 99%N 5000.


(** The result is a text of [n] characters. *)
Definition result_len_is (n : Z) (r : result pystr) : bool :=
  match r with
  | Ok s => (len s =? n)%Z
  | Raise _ => false
  end.

(** [datetime.now().isoformat()] for the second [t] of one minute. *)
Definition iso_of (t : Z) : pystr :=
  py "2026-01-01T09:00:"
  ++ [(48 + Z.to_N (t / 10))%N; (48 + Z.to_N (t mod 10))%N].

(** One run of the script in which the visitor sends [question] while
    the clock shows [t]. *)
Definition interaction (client : Client) (documents_context : pystr)
    (question : pystr) (t : Z) (w : World) : World :=
  snd (main_process_question ascii_lower insertion_order client
         documents_context (Some question) (iso_of t) (set_clock t w)).

(** The same question sent at each of the times [ts]. *)
Definition interactions (client : Client) (documents_context : pystr)
    (question : pystr) (ts : list Z) (w : World) : World :=
  fold_left (fun w' t => interaction client documents_context question t w')
            ts w.

Definition eleven_seconds : list Z := [0; 1; 2; 3; 4; 5; 6; 7; 8; 9; 10]%Z.

(** Three questions the validator refuses: too short, too long, and a
    character repeated twelve times. *)
Definition short_question : pystr := py "ok".
Definition long_question : pystr := concat (repeat (py "quand ") 84).
Definition spam_question : pystr := py "aaaaaaaaaaaa".

(** The validator refuses [q], and yet one run of the script with [q]
    sends a request to the backend and records a turn for it. *)
Definition refused_but_answered (q : pystr) : bool :=
  let w := interaction echo_client small_corpus q 0 fresh_world in
  negb (validate_question q)
  && (length (requests w) =? 1)%nat
  && (length (chat_history (session w)) =? 1)%nat
  && forallb (fun turn => str_eqb (question turn) (strip q))
             (chat_history (session w))
  && (length (chat_file w) =? 1)%nat.

(** The world after eleven questions sent in eleven consecutive time
    units. *)
Definition eleven_questions_world : World :=
  interactions echo_client small_corpus (py "Quels sont les horaires ?")
    eleven_seconds fresh_world.

(** A short life of the store: a turn, a new conversation, a second
    turn, and the first conversation deleted. *)
Definition sample_ops : list store_op :=
  [ OpAppend (py "2026-01-01T09:00:05") (py "Comment s'inscrire ?")
      (py "En ligne, avant le 15 septembre.");
    OpStartNew (py "20260101_090130");
    OpAppend (py "2026-01-01T09:01:40") (py "Et pour un stage ?")
      (py "Une convention signée est requise.");
    OpDelete (py "20260101_090000") ].

Definition second_turn : Turn :=
  mk_turn (py "2026-01-01T09:01:40") (py "20260101_090130")
    (py "Et pour un stage ?") (py "Une convention signée est requise.").

(** * The rest of the infrastructure *)

(** ** What the spam pattern looks for *)

(** Some character other than a line feed fills eleven consecutive
    positions of [s], from position [i] on. *)
Definition has_repeated_run (s : pystr) : Prop :=
  exists (c : N) (i : nat),
    c <> NL /\ forall j, j < 11 -> s !! (i + j) = Some c.

(** The characters already read of the run in progress. *)
Definition run_prefix (prev : option N) (count : nat) : pystr :=
  match prev with
  | Some p => replicate count p
  | None => []
  end.

(** ** Input sanitisation: sanitize_input *)

(** [html.escape(text)], quotes included: the five characters are
    replaced by their entities. *)
Definition html_escape_char (c : N) : pystr :=
  if (c =? 38)%N then py "&amp;"
  else if (c =? 60)%N then py "&lt;"
  else if (c =? 62)%N then py "&gt;"
  else if (c =? 34)%N then py "&quot;"
  else if (c =? 39)%N then py "&#x27;"
  else [c].

Definition html_escape (text : pystr) : pystr :=
  flat_map html_escape_char text.

(** The class [[<>{}()\[\]\\]]. *)
Definition dangerous_char (c : N) : bool :=
  ((c =? 60) || (c =? 62) || (c =? 123) || (c =? 125) || (c =? 40)
   || (c =? 41) || (c =? 91) || (c =? 93) || (c =? 92))%N.

(** [re.sub(r'[<>{}()\[\]\\]', '', text)] *)
Definition remove_dangerous (text : pystr) : pystr :=
  filter (fun c => is_true (negb (dangerous_char c))) text.

(** [max_length] is an integer or [None]. *)
Definition sanitize_input (text : pystr) (max_length : option Z) : pystr :=
  if negb (truthy text) then []
  else
    let escaped := remove_dangerous (html_escape text) in
    let cut :=
      match max_length with
      | Some n =>
          if negb (n =? 0)%Z && (n <? len escaped)%Z
          then slice_to escaped n else escaped
      | None => escaped
      end in
    strip cut.

(** A character that is neither in the class removed nor a quote. *)
Definition harmless_char (c : N) : bool :=
  negb (dangerous_char c) && negb (c =? 34)%N && negb (c =? 39)%N.

(** A character that [html.escape] and the class both leave alone. *)
Definition plain_char (c : N) : bool :=
  harmless_char c && negb (c =? 38)%N.

(** ** The cache: SimpleCache *)

Definition CACHE_TTL_SECONDS : Z := 3600.

(** [self._cache]: each key holds a value and the time it was set at,
    in whole time units.  [now] is [time.time()]. *)
Module SimpleCache.

Definition get {A} (now : Z) (key : pystr) (cache : gmap pystr (A * Z))
  : option A * gmap pystr (A * Z) :=
  match cache !! key with
  | Some (value, timestamp) =>
      if (now - timestamp <? CACHE_TTL_SECONDS)%Z then (Some value, cache)
      else (None, delete key cache)
  | None => (None, cache)
  end.

Definition set {A} (now : Z) (key : pystr) (value : A)
    (cache : gmap pystr (A * Z)) : gmap pystr (A * Z) :=
  <[key := (value, now)]> cache.

Definition clear {A} (cache : gmap pystr (A * Z)) : gmap pystr (A * Z) := ∅.

End SimpleCache.

(** ** Retries: retry_on_error *)

Section Retry.

(** The state the wrapped function works on, and what it returns. *)
Context {St A : Type}.
(** The wrapped function, applied to its arguments. *)
Variable func : St -> result A * St.
(** [time.sleep]. *)
Variable sleep : Q -> St -> St.




End Retry.




(** ** Runs with a disk that refuses to write *)


(** ** What a question sends to the backend *)

(** A request as [ask_rag_question] builds it for [user_question]: the
    temperature of the questions, a model of the list, a system message
    first, at most six messages of history, and last the user message
    that carries a context and the question. *)
Definition question_request (user_question : pystr) (r : Request) : Prop :=
  req_temperature r = QA_TEMPERATURE /\
  In (req_model r) MODEL_CANDIDATES /\
  exists system history context,
    req_messages r =
    [mk_message (py "system") system] ++ history
    ++ [mk_message (py "user") (user_prompt context user_question)] /\
    length history <= 6.

(** ** The emails generated *)

(** What the functions of the email history work on: the list
    [st.session_state.email_history], the emails stored in
    HISTORY_EMAIL_FILE, whether that file can be written, and the
    warnings shown. *)
Record EmailStore : Type := mk_email_store {
  es_history : list Email;
  es_file : list Email;
  es_disk_ok : bool;
  es_warnings : list pystr
}.

Definition save_email_history (s : EmailStore) : EmailStore :=
  if es_disk_ok s
  then mk_email_store (es_history s) (es_history s) (es_disk_ok s)
         (es_warnings s)
  else mk_email_store (es_history s) (es_file s) (es_disk_ok s)
         (es_warnings s ++ [py "Could not save email history."]).

(** [now_iso] is [datetime.now().isoformat()]. *)
Definition add_to_email_history (now_iso email_type' content : pystr)
    (s : EmailStore) : EmailStore :=
  save_email_history
    (mk_email_store (es_history s ++ [mk_email now_iso email_type' content])
       (es_file s) (es_disk_ok s) (es_warnings s)).

Definition clear_email_history (s : EmailStore) : EmailStore :=
  save_email_history
    (mk_email_store [] (es_file s) (es_disk_ok s) (es_warnings s)).

Definition delete_email_by_index (index : Z) (s : EmailStore) : EmailStore :=
  if (0 <=? index)%Z && (index <? Z.of_nat (length (es_history s)))%Z then
    save_email_history
      (mk_email_store (delete (Z.to_nat index) (es_history s))
         (es_file s) (es_disk_ok s) (es_warnings s))
  else s.

(** The index that the history tab passes to [delete_email_by_index]
    for the email shown at position [idx] of
    [enumerate(reversed(email_history))]. *)
Definition original_index (s : EmailStore) (idx : nat) : Z :=
  (Z.of_nat (length (es_history s)) - 1 - Z.of_nat idx)%Z.

Definition plain_corpus : pystr :=
  py "Bienvenue." ++ [NL] ++ py "Les inscriptions ouvrent en septembre.".

Definition three_emails : EmailStore :=
  mk_email_store
    [ mk_email (py "2026-01-01T09:00:00") (py "Complaint") (py "A");
      mk_email (py "2026-01-02T09:00:00") (py "Internship request") (py "B");
      mk_email (py "2026-01-03T09:00:00") (py "Complaint") (py "C") ]
    [] true [].

(** ** Trimmed texts *)

(** A text that neither starts nor ends with white space. *)
Definition trimmed (s : pystr) : Prop :=
  (forall c rest, s = c :: rest -> isspace c = false) /\
  (forall c front, s = front ++ [c] -> isspace c = false).

(** ** Session timeout: check_session_timeout *)

Definition SESSION_TIMEOUT_MINUTES : Z := 30.

(** The part of [st.session_state] that [check_session_timeout] reads
    and writes.  A [datetime] is the number of microseconds since a
    fixed instant, the unit in which Python keeps it. *)
Record Activity : Type := mk_activity {
  act_session_id : option pystr;
  last_activity : option Z
}.

(** [timedelta(minutes=m)], in microseconds. *)
Definition minutes (m : Z) : Z := (m * 60 * 1000000)%Z.

(** [now] is [datetime.now()]; [new_id] is the identifier that
    [get_session_id] would make up, should the session have none when
    the time-out is logged. *)
Definition check_session_timeout (now : Z) (new_id : pystr) (s : Activity)
  : bool * Activity :=
  match last_activity s with
  | None => (false, mk_activity (act_session_id s) (Some now))
  | Some last =>
      let elapsed := (now - last)%Z in
      if (minutes SESSION_TIMEOUT_MINUTES <? elapsed)%Z then
        (true,
         mk_activity
           (match act_session_id s with
            | Some sid => Some sid
            | None => Some new_id
            end)
           (last_activity s))
      else (false, mk_activity (act_session_id s) (Some now))
  end.

(** The checks made at the times [times], in order: their answers and
    the state at the end. *)
Fixpoint checks_at (new_id : pystr) (times : list Z) (s : Activity)
  : list bool * Activity :=
  match times with
  | [] => ([], s)
  | now :: rest =>
      let r := check_session_timeout now new_id s in
      let rs := checks_at new_id rest (snd r) in
      (fst r :: fst rs, snd rs)
  end.

(** ** Email generation: generate_administrative_email *)

Definition email_prompt (lang email_type' relevant_context : pystr) : pystr :=
  py "You are an expert university administrative writing assistant (language: "
  ++ lang ++ py "). "
  ++ py "Generate a professional email for: " ++ email_type' ++ [NL; NL]
  ++ py "You may use the official context below when relevant:" ++ [NL]
  ++ relevant_context ++ [NL; NL]
  ++ py "Output format (strict):" ++ [NL]
  ++ py "Subject: <subject line>" ++ [NL; NL]
  ++ py "Body:" ++ [NL] ++ py "<body text>" ++ [NL; NL]
  ++ py "Professional closing:" ++ [NL]
  ++ py "<closing line + signature placeholder>".

Definition email_messages (lang email_type' relevant_context : pystr)
  : list Message :=
  [ mk_message (py "system")
      (py "Write clear, polite, and professional academic administrative emails.");
    mk_message (py "user") (email_prompt lang email_type' relevant_context) ].

Section Email.

(** [str.lower]. *)
Variable lower : pystr -> pystr.
(** The order in which a set is iterated, from its elements. *)
Variable set_iter : list pystr -> list pystr.

Definition generate_administrative_email (client : Client)
    (email_type' documents_context lang : pystr) : M pystr :=
  let* relevant_context :=
    lift (extract_relevant_sections lower set_iter documents_context
            email_type' 3000) in
  chat_completion_with_fallback client EMAIL_TEMPERATURE
    (email_messages lang email_type' relevant_context).

End Email.

(** ** Analytics: track_analytics *)

Section Analytics.

(** The events of the analytics file, as JSON values. *)
Variable Event : Type.

(** What [track_analytics] finds in ANALYTICS_FILE: no file, a content
    it cannot use (unreadable, not JSON, or JSON that is not a list),
    or a list of events. *)
Inductive analytics_file : Type :=
  | NoAnalytics
  | UnusableAnalytics
  | AnalyticsEvents (events : list Event).

(** [event_data] is the record built from the arguments, the clock and
    the session; [write_ok] tells whether the file can be written.
    Every exception is caught and logged. *)
Definition track_analytics (event_data : Event) (write_ok : bool)
    (file : analytics_file) : analytics_file :=
  match file with
  | UnusableAnalytics => file
  | NoAnalytics =>
      if write_ok then AnalyticsEvents (last_n 1000 ([] ++ [event_data]))
      else file
  | AnalyticsEvents old =>
      if write_ok then AnalyticsEvents (last_n 1000 (old ++ [event_data]))
      else file
  end.

(** The number of events the file holds. *)
Definition analytics_size (file : analytics_file) : nat :=
  match file with
  | AnalyticsEvents events => length events
  | _ => 0
  end.

(** The calls made with the events and the disk states of [calls'], in
    order. *)
Definition track_all (calls' : list (Event * bool)) (file : analytics_file)
  : analytics_file :=
  fold_left (fun f c => track_analytics (fst c) (snd c) f) calls' file.

End Analytics.
Arguments NoAnalytics {Event}.
Arguments UnusableAnalytics {Event}.
Arguments AnalyticsEvents {Event} events.
Arguments track_analytics {Event} event_data write_ok file.
Arguments analytics_size {Event} file.
Arguments track_all {Event} calls' file.

(** ** Loading the history: load_chat_history *)

(** The values that [json.loads] returns.  A number is kept as its
    text; an object is the list of its members in the order of the
    file. *)
#[local] Unset Elimination Schemes.
Inductive json : Type :=
  | JNull
  | JBool (b : bool)
  | JNumber (text : pystr)
  | JString (s : pystr)
  | JArray (items : list json)
  | JObject (members : list (pystr * json)).
#[local] Set Elimination Schemes.

(** The outcome of a load: the list returned, or an exception that
    [load_chat_history] does not catch (it catches [JSONDecodeError]
    and [IOError] only). *)
Inductive loaded (A : Type) : Type :=
  | Loaded (a : A)
  | Crashed.
Arguments Loaded {A} a.
Arguments Crashed {A}.

Fixpoint obj_get (d : list (pystr * json)) (k : pystr) : option json :=
  match d with
  | [] => None
  | (k', v) :: d' => if str_eqb k' k then Some v else obj_get d' k
  end.

(** [d[k] = v]: a key already present keeps its place. *)
Fixpoint obj_set (d : list (pystr * json)) (k : pystr) (v : json)
  : list (pystr * json) :=
  match d with
  | [] => [(k, v)]
  | (k', v') :: d' =>
      if str_eqb k' k then (k, v) :: d' else (k', v') :: obj_set d' k v
  end.

Definition is_string (k : pystr) (v : json) : bool :=
  match v with
  | JString s => str_eqb s k
  | _ => false
  end.

(** [s.replace(c, "")] for a one-character [c]. *)
Definition remove_char (c : N) (s : pystr) : pystr :=
  filter (fun x => x <> c) s.

(** [timestamp[:16].replace(":", "").replace("-", "")] *)
Definition id_of_timestamp (timestamp : pystr) : pystr :=
  remove_char 45%N (remove_char 58%N (slice_to timestamp 16)).

(** One turn of the loop over the entries: the entry as it is left, or
    the exception.  [now_iso] is [datetime.now().isoformat()]. *)
Definition migrate_entry (now_iso : pystr) (entry : json) : loaded json :=
  match entry with
  | JObject d =>
      match obj_get d (py "conversation_id") with
      | Some _ => Loaded entry
      | None =>
          let timestamp :=
            match obj_get d (py "timestamp") with
            | Some v => v
            | None => JString now_iso
            end in
          match timestamp with
          | JString t =>
              Loaded (JObject (obj_set d (py "conversation_id")
                                 (JString (id_of_timestamp t))))
          | _ => Crashed
          end
      end
  | JString s =>
      if contains (py "conversation_id") s then Loaded entry else Crashed
  | JArray items =>
      if existsb (is_string (py "conversation_id")) items
      then Loaded entry else Crashed
  | JNull | JBool _ | JNumber _ => Crashed
  end.

Fixpoint migrate_entries (now_iso : pystr) (data : list json)
  : loaded (list json) :=
  match data with
  | [] => Loaded []
  | entry :: rest =>
      match migrate_entry now_iso entry with
      | Crashed => Crashed
      | Loaded entry' =>
          match migrate_entries now_iso rest with
          | Crashed => Crashed
          | Loaded rest' => Loaded (entry' :: rest')
          end
      end
  end.

(** What [load_chat_history] finds at HISTORY_CHAT_FILE: no file, a
    file that cannot be read or is not JSON, or a JSON value. *)
Inductive history_file : Type :=
  | NoHistory
  | UnreadableHistory
  | HistoryJson (data : json).

Definition load_chat_history (now_iso : pystr) (file : history_file)
  : loaded (list json) :=
  match file with
  | NoHistory => Loaded []
  | UnreadableHistory => Loaded []
  | HistoryJson (JArray data) => migrate_entries now_iso data
  | HistoryJson _ => Loaded []
  end.

(** An entry as [add_to_chat_history] has written it since
    conversations exist, or before: an object whose time stamp, if any,
    is a string. *)
Definition turn_record (entry : json) : Prop :=
  match entry with
  | JObject d =>
      match obj_get d (py "timestamp") with
      | Some (JString _) | None => True
      | Some _ => False
      end
  | _ => False
  end.

(** The [conversation_id] of an entry, when it is an object that has
    one. *)
Definition entry_conversation_id (entry : json) : option json :=
  match entry with
  | JObject d => obj_get d (py "conversation_id")
  | _ => None
  end.

Definition legacy_history : list json :=
  [ JObject [ (py "timestamp", JString (py "2025-11-03T14:05:09.120000"));
              (py "question", JString (py "Bonjour"));
              (py "answer", JString (py "Salut")) ];
    JObject [ (py "timestamp", JString (py "2026-01-01T09:00:05"));
              (py "conversation_id", JString (py "20260101_090000"));
              (py "question", JString (py "Stage ?"));
              (py "answer", JString (py "Convention.")) ] ].

(** ** The sections of a corpus, read back *)

(** The labels computed for the header lines among [lines], in order. *)
Definition labels_of (lines : list pystr) : list (result pystr) :=
  map header_label (List.filter (startswith (py "SECTION ")) lines).

(** The labels of the header lines of a corpus. *)
Definition header_labels (full_context : pystr) : list (result pystr) :=
  labels_of (split_char NL full_context).

(** * Properties *)

(** ** Strings *)

Lemma str_eqb_eq (a b : pystr) : str_eqb a b = true <-> a = b.
Proof.
  revert b; induction a as [|x a IH]; intros [|y b]; simpl; try easy.
  rewrite andb_true_iff, N.eqb_eq, IH.
  split; [intros [-> ->]; reflexivity | intros [= -> ->]; auto].
Qed.

Lemma str_eqb_refl (a : pystr) : str_eqb a a = true.
Proof. apply str_eqb_eq; reflexivity. Qed.

Lemma str_eqb_neq (a b : pystr) : str_eqb a b = false <-> a <> b.
Proof.
  rewrite <- str_eqb_eq. destruct (str_eqb a b); split; congruence.
Qed.

(** ** The conversation store *)

Lemma save_chat_history_session (w : World) :
  fst (save_chat_history w) = Ok tt /\
  session (snd (save_chat_history w)) = session w.
Proof. unfold save_chat_history. destruct (disk_ok w); split; reflexivity. Qed.

(** C9. [start_new_conversation] returns normally and yields the world
    it was given with two fields of the session replaced: the
    conversation id, now the reading of the clock, and
    [current_conversation], now empty.  The durable history
    [chat_history] and the history file keep every turn, unchanged. *)
Theorem start_new_conversation_keeps_history (now_stamp : pystr) (w : World) :
  start_new_conversation now_stamp w =
  (Ok tt,
   set_session
     (mk_session (session_id (session w)) (language (session w))
        (chat_history (session w)) [] now_stamp
        (email_history (session w)) (current_email (session w))
        (dark_mode (session w))) w) /\
  chat_history (session (snd (start_new_conversation now_stamp w)))
  = chat_history (session w) /\
  chat_file (snd (start_new_conversation now_stamp w)) = chat_file w.
Proof. repeat split. Qed.

Lemma store_inv_init (s : SessionState) :
  current_conversation s = [] -> store_inv s.
Proof.
  intros E; split; intros t Ht; rewrite E in Ht; inversion Ht.
Qed.

Lemma run_op_ok (op : store_op) (w : World) : fst (run_op op w) = Ok tt.
Proof.
  destruct op; simpl;
    unfold add_to_chat_history, start_new_conversation,
      delete_conversation_by_id, clear_all_history, bind, modify_session,
      modify; simpl; try reflexivity; apply save_chat_history_session.
Qed.

Lemma run_op_inv (op : store_op) (w : World) :
  store_inv (session w) -> store_inv (session (snd (run_op op w))).
Proof.
  intros [Hin Hid].
  destruct op as [now_iso q a | now_stamp | cid | ]; simpl;
    unfold add_to_chat_history, start_new_conversation,
      delete_conversation_by_id, clear_all_history, bind, modify_session,
      modify; simpl.
  - rewrite (proj2 (save_chat_history_session _)); simpl.
    split; intros t Ht; simpl in *.
    + apply elem_of_app in Ht. apply elem_of_app.
      destruct Ht as [Ht | Ht]; [left; auto | right; exact Ht].
    + apply elem_of_app in Ht. destruct Ht as [Ht | Ht]; [auto |].
      apply list_elem_of_singleton in Ht. subst t. reflexivity.
  - split; intros t Ht; simpl in Ht; inversion Ht.
  - rewrite (proj2 (save_chat_history_session _)); simpl.
    destruct (str_eqb (conversation_id (session w)) cid) eqn:E; simpl.
    + split; intros t Ht; inversion Ht.
    + split; intros t Ht; [| auto].
      apply list_elem_of_filter. split; [| auto].
      rewrite (Hid t Ht), E. reflexivity.
  - rewrite (proj2 (save_chat_history_session _)); simpl.
    split; intros t Ht; inversion Ht.
Qed.

Lemma run_ops_inv (ops : list store_op) (w : World) :
  store_inv (session w) -> store_inv (session (run_ops ops w)).
Proof.
  revert w; induction ops as [|op ops IH]; intros w Hw; simpl; [exact Hw |].
  apply IH, run_op_inv, Hw.
Qed.

(** C10. From a session whose display is empty, as
    [init_session_state] leaves it, every sequence of appends, new
    conversations, deletions by id and clearings leaves each turn of
    [current_conversation] present in [chat_history]. *)
Theorem current_conversation_in_history
    (ops : list store_op) (w : World) (t : Turn) :
  current_conversation (session w) = [] ->
  In t (current_conversation (session (run_ops ops w))) ->
  In t (chat_history (session (run_ops ops w))).
Proof.
  intros Hinit Ht.
  apply list_elem_of_In. apply list_elem_of_In in Ht.
  exact (proj1 (run_ops_inv ops w (store_inv_init _ Hinit)) t Ht).
Qed.

Lemma current_conversation_in_history_witness :
  In second_turn (chat_history (session (run_ops sample_ops fresh_world))).
Proof.
  apply (current_conversation_in_history sample_ops fresh_world second_turn).
  - reflexivity.
  - vm_compute. left. reflexivity.
Defined.

(** ** The rate limiter *)

Lemma prune_all (now : Z) (l : list Z) :
  (forall a, a ∈ l -> (now - a < RATE_LIMIT_WINDOW_SECONDS)%Z) ->
  prune now l = l.
Proof.
  unfold prune. induction l as [|a l IH]; intros H; [reflexivity |].
  rewrite filter_cons. destruct (decide _) as [_ | n].
  - f_equal. apply IH. intros b Hb. apply H. now right.
  - exfalso. apply n, H. now left.
Qed.

Lemma prune_none (now : Z) (l : list Z) :
  (forall a, a ∈ l -> (RATE_LIMIT_WINDOW_SECONDS <= now - a)%Z) ->
  prune now l = [].
Proof.
  unfold prune. induction l as [|a l IH]; intros H; [reflexivity |].
  rewrite filter_cons. destruct (decide _) as [y | _].
  - exfalso. specialize (H a ltac:(now left)). lia.
  - apply IH. intros b Hb. apply H. now right.
Qed.

Lemma rate_limit_gate_spec {A} (func : M A) (w : World) : gate_spec func w.
Proof.
  unfold gate_spec, rate_limit. cbv zeta.
  set (kept := prune (clock w) _).
  destruct (decide _) as [Hlt | Hge].
  - destruct (Z.leb_spec RATE_LIMIT_REQUESTS (Z.of_nat (length kept)));
      [lia |].
    simpl. rewrite insert_insert_eq. reflexivity.
  - destruct (Z.leb_spec RATE_LIMIT_REQUESTS (Z.of_nat (length kept)));
      [| lia].
    eexists. reflexivity.
Qed.

(** A call below the threshold: the function runs on the world in which
    the timestamp has been recorded. *)
Lemma rate_limit_allowed {A} (func : M A) (w : World) :
  let user_id := rate_user_id (session w) in
  let kept := prune (clock w) (rate_limit_storage w !!! user_id) in
  (Z.of_nat (length kept) < RATE_LIMIT_REQUESTS)%Z ->
  limiter_frame func ->
  allowed (fst (rate_limit func w)) /\
  rate_limit_storage (snd (rate_limit func w)) !!! user_id
  = kept ++ [clock w] /\
  rate_user_id (session (snd (rate_limit func w))) = user_id.
Proof.
  intros user_id kept Hlt Hframe.
  pose proof (rate_limit_gate_spec func w) as Hs.
  unfold gate_spec in Hs. cbv zeta in Hs.
  fold user_id in Hs. fold kept in Hs.
  destruct (decide _) as [_ | n]; [| contradiction].
  rewrite Hs. unfold bind.
  set (w1 := set_rate_limit_storage _ w).
  destruct (Hframe w1) as [Hst Hid].
  destruct (func w1) as [[r | e] w2] eqn:E; simpl in *;
    (split; [unfold allowed; discriminate |]);
    rewrite Hst, Hid; subst w1; simpl;
    rewrite lookup_total_insert_eq; auto.
Qed.

(** A call at the threshold: denied, nothing raised, nothing recorded. *)
Lemma rate_limit_denied {A} (func : M A) (w : World) :
  let user_id := rate_user_id (session w) in
  let kept := prune (clock w) (rate_limit_storage w !!! user_id) in
  (RATE_LIMIT_REQUESTS <= Z.of_nat (length kept))%Z ->
  fst (rate_limit func w) = Ok None /\
  rate_limit_storage (snd (rate_limit func w)) !!! user_id = kept /\
  session (snd (rate_limit func w)) = session w /\
  requests (snd (rate_limit func w)) = requests w.
Proof.
  intros user_id kept Hge.
  pose proof (rate_limit_gate_spec func w) as Hs.
  unfold gate_spec in Hs. cbv zeta in Hs.
  fold user_id in Hs. fold kept in Hs.
  destruct (decide _) as [y | _]; [lia |].
  destruct Hs as [text ->]. simpl.
  rewrite lookup_total_insert_eq. auto.
Qed.

(** Calls inside one window, while the threshold is not reached, are
    all allowed and all recorded. *)
Lemma calls_at_allowed {A} (func : M A) (t0 : Z) (ts : list Z) (w : World) :
  let user_id := rate_user_id (session w) in
  let stored := rate_limit_storage w !!! user_id in
  limiter_frame func ->
  (forall a, a ∈ stored ++ ts -> (t0 <= a < t0 + RATE_LIMIT_WINDOW_SECONDS)%Z) ->
  (Z.of_nat (length stored + length ts) <= RATE_LIMIT_REQUESTS)%Z ->
  Forall allowed (fst (calls_at func ts w)) /\
  length (fst (calls_at func ts w)) = length ts /\
  rate_limit_storage (snd (calls_at func ts w)) !!! user_id = stored ++ ts /\
  rate_user_id (session (snd (calls_at func ts w))) = user_id.
Proof.
  revert w. induction ts as [|t ts IH]; intros w user_id stored Hf Hwin Hlen.
  - simpl. rewrite app_nil_r. auto.
  - simpl.
    assert (Hk : prune t stored = stored).
    { apply prune_all. intros a Ha.
      pose proof (Hwin a ltac:(apply elem_of_app; now left)).
      pose proof (Hwin t ltac:(apply elem_of_app; right; now left)).
      lia. }
    destruct (rate_limit_allowed func (set_clock t w)) as (Hal & Hst & Hid);
      simpl; fold user_id; fold stored; try rewrite Hk; auto.
    { simpl in Hlen. lia. }
    simpl in Hst, Hid. fold user_id in Hst, Hid. fold stored in Hst.
    rewrite Hk in Hst.
    destruct (IH (snd (rate_limit func (set_clock t w)))) as (H1 & H2 & H3 & H4);
      auto.
    + rewrite Hid, Hst. intros a Ha. apply Hwin.
      rewrite <- app_assoc in Ha. exact Ha.
    + rewrite Hid, Hst. rewrite !length_app in *. simpl in *. lia.
    + rewrite Hid, Hst in *. split; [constructor; auto |].
      split; [lia |]. split; [| auto].
      rewrite H3, <- app_assoc. reflexivity.
Qed.

(** C8. The gate for one session with threshold 10 and window 60.  Every
    call prunes, then records and runs the function when fewer than 10
    timestamps remain, and otherwise denies with nothing recorded and
    nothing raised ([gate_spec]).  Hence from an empty window ten calls
    made within 60 time units are all allowed, an eleventh within the
    same 60 units is denied and not recorded, and a call made once the
    ten timestamps are 60 or more units old is allowed again. *)
Theorem rate_limit_window (A : Type) (func : M A) (w : World)
    (t0 t11 t_late : Z) (ts : list Z) :
  limiter_frame func ->
  rate_limit_storage w !!! rate_user_id (session w) = [] ->
  length ts = 10 ->
  Forall (fun a => t0 <= a < t0 + RATE_LIMIT_WINDOW_SECONDS)%Z (ts ++ [t11]) ->
  Forall (fun a => RATE_LIMIT_WINDOW_SECONDS <= t_late - a)%Z ts ->
  let user_id := rate_user_id (session w) in
  let first := calls_at func ts w in
  let eleventh := rate_limit func (set_clock t11 (snd first)) in
  let late := rate_limit func (set_clock t_late (snd eleventh)) in
  (forall w', gate_spec func w') /\
  Forall allowed (fst first) /\ length (fst first) = 10 /\
  fst eleventh = Ok None /\
  rate_limit_storage (snd eleventh) !!! user_id = ts /\
  allowed (fst late) /\
  rate_limit_storage (snd late) !!! user_id = [t_late].
Proof.
  intros Hframe Hempty Hlen Hwin Hlate user_id first eleventh late.
  rewrite Forall_forall in Hwin, Hlate.
  split; [intros w'; apply rate_limit_gate_spec |].
  destruct (calls_at_allowed func t0 ts w) as (H1 & H2 & H3 & H4); auto.
  { rewrite Hempty. simpl. intros a Ha. apply Hwin.
    apply elem_of_app. now left. }
  { rewrite Hempty, Hlen. unfold RATE_LIMIT_REQUESTS. simpl. lia. }
  rewrite Hempty in H3. simpl in H3.
  fold first in H1, H2, H3, H4. fold user_id in H3, H4.
  assert (Hk : prune t11 ts = ts).
  { apply prune_all. intros a Ha.
    pose proof (Hwin a ltac:(apply elem_of_app; now left)).
    pose proof (Hwin t11 ltac:(apply elem_of_app; right; now left)).
    lia. }
  destruct (rate_limit_denied func (set_clock t11 (snd first)))
    as (D1 & D2 & D3 & D4).
  { simpl. rewrite H4, H3, Hk, Hlen. unfold RATE_LIMIT_REQUESTS. lia. }
  simpl in D2, D3, D4. rewrite H4, H3, Hk in D2.
  fold eleventh in D1, D2, D3, D4.
  destruct (rate_limit_allowed func (set_clock t_late (snd eleventh)))
    as (L1 & L2 & L3); auto.
  { simpl. rewrite D3, H4, D2, (prune_none t_late ts) by auto.
    unfold RATE_LIMIT_REQUESTS. simpl. lia. }
  simpl in L2. rewrite D3, H4, D2, (prune_none t_late ts) in L2 by auto.
  fold late in L1, L2.
  repeat split; auto. lia.
Qed.

Lemma ret_limiter_frame {A} (a : A) : limiter_frame (ret a).
Proof. intros w. split; reflexivity. Qed.

Lemma rate_limit_window_witness :
  Forall allowed (fst (calls_at (ret tt) ten_stamps fresh_world)) /\
  fst (rate_limit (ret tt)
         (set_clock 59 (snd (calls_at (ret tt) ten_stamps fresh_world))))
  = Ok None /\
  allowed
    (fst (rate_limit (ret tt)
            (set_clock 119
               (snd (rate_limit (ret tt)
                       (set_clock 59
                          (snd (calls_at (ret tt) ten_stamps
                                  fresh_world)))))))).
Proof.
  destruct (rate_limit_window unit (ret tt) fresh_world 0 59 119 ten_stamps)
    as (_ & H1 & _ & H2 & _ & H3 & _).
  - apply ret_limiter_frame.
  - reflexivity.
  - reflexivity.
  - unfold RATE_LIMIT_WINDOW_SECONDS. repeat constructor; lia.
  - unfold RATE_LIMIT_WINDOW_SECONDS. repeat constructor; lia.
  - auto.
Defined.

(** ** The model invoker *)

Lemma attempt_eq (client : Client) (temperature : Q)
    (messages : list Message) (m : pystr) (w : World) :
  attempt client temperature messages m w =
  (attempt_outcome client (map snd (requests w))
     (mk_request m temperature messages),
   set_requests (requests w ++ sent_at (clock w) temperature messages [m]) w).
Proof.
  unfold attempt, bind, create, attempt_outcome. simpl.
  destruct (client _ _) as [[|choice rest] | e]; reflexivity.
Qed.

Lemma last_cons_default {A} (l : list A) (a d d' : A) :
  List.last (a :: l) d = List.last (a :: l) d'.
Proof.
  revert a; induction l as [|b l IH]; intros a; [reflexivity |].
  change (List.last (b :: l) d = List.last (b :: l) d'). apply IH.
Qed.

(** Candidates that all fail are all tried, once each and in order, and
    the error of the last one is raised; with no candidate at all the
    error passed in, or the [RuntimeError], is. *)
Lemma fallback_loop_exhausted (client : Client) (temperature : Q)
    (messages : list Message) (candidates : list pystr) :
  forall (last_error : option exn) (w : World) (errs : list exn),
    failures client temperature messages (map snd (requests w)) candidates
    = Some errs ->
    fallback_loop client temperature messages candidates last_error w =
    (Raise (List.last errs
              (match last_error with
               | Some e => e
               | None => RuntimeError (py "No Groq models available.")
               end)),
     set_requests
       (requests w ++ sent_at (clock w) temperature messages candidates) w).
Proof.
  induction candidates as [|m rest IH]; intros last_error w errs Hf.
  - injection Hf as <-. simpl. rewrite app_nil_r.
    destruct w; destruct last_error; reflexivity.
  - simpl in Hf. simpl fallback_loop. unfold try_except.
    rewrite attempt_eq.
    destruct (attempt_outcome _ _ _) as [text | e]; [discriminate |].
    destruct (failures _ _ _ _ rest) as [errs' |] eqn:Hrest; [| discriminate].
    injection Hf as <-.
    rewrite (IH (Some e) _ errs').
    + f_equal.
      * f_equal. destruct errs' as [|e' errs'']; [reflexivity |].
        etransitivity; [apply last_cons_default | reflexivity].
      * unfold set_requests. simpl. rewrite <- app_assoc. reflexivity.
    + simpl. rewrite map_app. exact Hrest.
Qed.

(** Candidates that fail followed by one that succeeds: the failing
    ones and the succeeding one are tried, once each and in order, the
    text of the succeeding one is returned and none after it is
    tried. *)
Lemma fallback_loop_first_success (client : Client) (temperature : Q)
    (messages : list Message) (m : pystr) (post : list pystr)
    (text : pystr) (pre : list pystr) :
  forall (last_error : option exn) (w : World) (errs : list exn),
    failures client temperature messages (map snd (requests w)) pre
    = Some errs ->
    attempt_outcome client
      (map snd (requests w) ++ requests_for temperature messages pre)
      (mk_request m temperature messages) = Ok text ->
    fallback_loop client temperature messages (pre ++ m :: post)
      last_error w =
    (Ok text,
     set_requests
       (requests w ++ sent_at (clock w) temperature messages (pre ++ [m]))
       w).
Proof.
  induction pre as [|p pre IH]; intros last_error w errs Hf Hok.
  - simpl in *. rewrite app_nil_r in Hok. unfold try_except.
    rewrite attempt_eq, Hok. reflexivity.
  - simpl in Hf. simpl app. simpl fallback_loop. unfold try_except.
    rewrite attempt_eq.
    destruct (attempt_outcome _ _ _) as [t | e]; [discriminate |].
    destruct (failures _ _ _ _ pre) as [errs' |] eqn:Hrest; [| discriminate].
    rewrite (IH (Some e) _ errs').
    + unfold set_requests. simpl. rewrite <- app_assoc. reflexivity.
    + simpl. rewrite map_app. exact Hrest.
    + simpl. rewrite map_app. simpl. rewrite <- app_assoc. exact Hok.
Qed.

Lemma failures_snoc (client : Client) (temperature : Q)
    (messages : list Message) (m : pystr) (e : exn) (pre : list pystr) :
  forall (log : list Request) (errs : list exn),
    failures client temperature messages log pre = Some errs ->
    attempt_outcome client (log ++ requests_for temperature messages pre)
      (mk_request m temperature messages) = Raise e ->
    failures client temperature messages log (pre ++ [m])
    = Some (errs ++ [e]).
Proof.
  induction pre as [|p pre IH]; intros log errs Hf He; simpl in *.
  - injection Hf as <-. rewrite app_nil_r in He. rewrite He. reflexivity.
  - destruct (attempt_outcome client log _) as [t | e0]; [discriminate |].
    destruct (failures _ _ _ _ pre) as [errs' |] eqn:Hrest; [| discriminate].
    injection Hf as <-.
    rewrite (IH _ errs' Hrest); [reflexivity |].
    rewrite <- app_assoc. exact He.
Qed.

(** C4. [chat_completion_with_fallback] walks [MODEL_CANDIDATES] in the
    order it is given.  When the candidates [pre] before [m] have all
    failed, one request each, then: if [m] succeeds its text is returned
    and the requests sent are exactly those for [pre] and [m], in order,
    none for the candidates after [m]; if [m] is the last candidate and
    fails too, the error of [m] is raised after exactly one request per
    candidate. *)
Theorem chat_completion_with_fallback_order (client : Client)
    (temperature : Q) (messages : list Message) (w : World)
    (pre : list pystr) (m : pystr) (post : list pystr) (errs : list exn) :
  MODEL_CANDIDATES = pre ++ m :: post ->
  failures client temperature messages (map snd (requests w)) pre
  = Some errs ->
  (forall text,
      attempt_outcome client
        (map snd (requests w) ++ requests_for temperature messages pre)
        (mk_request m temperature messages) = Ok text ->
      chat_completion_with_fallback client temperature messages w =
      (Ok text,
       set_requests
         (requests w ++ sent_at (clock w) temperature messages (pre ++ [m]))
         w)) /\
  (forall e,
      post = [] ->
      attempt_outcome client
        (map snd (requests w) ++ requests_for temperature messages pre)
        (mk_request m temperature messages) = Raise e ->
      chat_completion_with_fallback client temperature messages w =
      (Raise e,
       set_requests
         (requests w
          ++ sent_at (clock w) temperature messages MODEL_CANDIDATES) w) /\
      length (sent_at (clock w) temperature messages MODEL_CANDIDATES)
      = length MODEL_CANDIDATES).
Proof.
  intros Hsplit Hpre. unfold chat_completion_with_fallback.
  split.
  - intros text Hok. rewrite Hsplit.
    exact (fallback_loop_first_success client temperature messages m post
             text pre None w errs Hpre Hok).
  - intros e -> He. split; [| apply length_map].
    rewrite Hsplit.
    rewrite (fallback_loop_exhausted client temperature messages
               (pre ++ [m]) None w (errs ++ [e])).
    + rewrite last_last. reflexivity.
    + apply failures_snoc; assumption.
Qed.

Lemma chat_completion_with_fallback_order_witness :
  chat_completion_with_fallback second_model_client QA_TEMPERATURE []
    fresh_world =
  (Ok (py "Bonjour"),
   set_requests
     (sent_at 0 QA_TEMPERATURE []
        [py "llama-3.1-8b-instant"; py "llama-3.3-70b-versatile"])
     fresh_world).
Proof.
  refine (proj1 (chat_completion_with_fallback_order second_model_client
                   QA_TEMPERATURE [] fresh_world
                   [py "llama-3.1-8b-instant"] (py "llama-3.3-70b-versatile")
                   [] [BackendError (py "model overloaded")] _ _)
                (py "Bonjour") _); reflexivity.
Defined.

(** ** Quick replies *)







(** ** Context selection *)

Lemma startswith_prefix (p s : pystr) :
  startswith p s = true <-> exists after, s = p ++ after.
Proof.
  revert s; induction p as [|x p IH]; intros s; simpl.
  - split; [intros _; exists s; reflexivity | reflexivity].
  - destruct s as [|y s].
    + split; [discriminate | intros [after H]; discriminate].
    + rewrite andb_true_iff, N.eqb_eq, IH. split.
      * intros [-> [after ->]]. exists after. reflexivity.
      * intros [after [= -> ->]]. split; [reflexivity | exists after; reflexivity].
Qed.







Lemma slice_to_truthy (s : pystr) (n : Z) :
  s <> [] -> (0 < n)%Z -> slice_to s n <> [].
Proof.
  intros Hs Hn. unfold slice_to.
  destruct (Z.leb_spec 0 n); [| lia].
  destruct s as [|c s]; [contradiction |].
  destruct (Z.to_nat n) eqn:E; [lia | discriminate].
Qed.

Lemma truthy_true {A} (l : list A) : truthy l = true <-> l <> [].
Proof. destruct l; simpl; split; congruence. Qed.

(** How far the guarantee of a non-empty context goes: whenever the
    corpus parses, a text is returned, and for a non-empty corpus and a
    positive budget it is not empty. *)
Lemma extract_relevant_sections_nonempty
    (lower : pystr -> pystr) (set_iter : list pystr -> list pystr)
    (full_context user_question : pystr) (max_chars : Z)
    (sections : list (pystr * pystr)) :
  parse_sections full_context = Ok sections ->
  full_context <> [] -> (0 < max_chars)%Z ->
  exists out,
    extract_relevant_sections lower set_iter full_context user_question
      max_chars = Ok out /\ out <> [].
Proof.
  intros Hparse Hne Hpos. unfold extract_relevant_sections. cbv zeta.
  rewrite Hparse. simpl.
  destruct (truthy (extracted _)).
  - destruct (truthy (join _ _)) eqn:E; eexists; (split; [reflexivity |]).
    + apply truthy_true, E.
    + apply slice_to_truthy; assumption.
  - eexists. split; [reflexivity | apply slice_to_truthy; assumption].
Qed.

(** The two fallbacks, as the code takes them. *)
Lemma relevant_sections_default (question_lower : pystr) :
  matched_sections question_lower = [] ->
  relevant_sections question_lower = default_sections.
Proof. unfold relevant_sections. intros ->. reflexivity. Qed.

Lemma extract_relevant_sections_raw_prefix
    (lower : pystr -> pystr) (set_iter : list pystr -> list pystr)
    (full_context user_question : pystr) (max_chars : Z)
    (sections : list (pystr * pystr)) :
  parse_sections full_context = Ok sections ->
  extracted
    (collect_sections (set_iter (relevant_sections (lower user_question)))
       max_chars sections) = [] ->
  extract_relevant_sections lower set_iter full_context user_question
    max_chars = Ok (slice_to full_context max_chars).
Proof.
  intros Hparse Hnone. unfold extract_relevant_sections. cbv zeta.
  rewrite Hparse. simpl. rewrite Hnone. reflexivity.
Qed.




Lemma default_orders_exceed :
  forallb
    (fun order =>
       result_len_is 12016
         (extract_relevant_sections ascii_lower (fun _ => order) long_corpus
            (py "Quels sont les horaires ?") 4000))
    (permutations default_sections) = true.
Proof. vm_compute. reflexivity. Qed.

(** C1, at an input where it fails.  With the three default sections
    each longer than the budget of 4000, every order of iteration yields
    three truncated pieces: 12016 characters, three times the budget and
    the marker. *)
Theorem extract_relevant_sections_exceeds_budget
    (set_iter : list pystr -> list pystr) :
  (forall l, Permutation (set_iter l) l) ->
  exists out,
    extract_relevant_sections ascii_lower set_iter long_corpus
      (py "Quels sont les horaires ?") 4000 = Ok out /\
    len out = 12016%Z /\ (4000 + len (NL :: py "...") < len out)%Z.
Proof.
  intros Hperm.
  assert (Hrel : relevant_sections (ascii_lower (py "Quels sont les horaires ?"))
                 = default_sections) by (vm_compute; reflexivity).
  assert (Hin : set_iter default_sections ∈ permutations default_sections).
  { apply permutations_Permutation. symmetry. apply Hperm. }
  pose proof default_orders_exceed as Hall.
  rewrite forallb_forall in Hall.
  specialize (Hall _ (proj1 (list_elem_of_In _ _) Hin)).
  unfold extract_relevant_sections in *. cbv zeta in *.
  rewrite Hrel in *.
  destruct (rbind _ _) as [out | e]; simpl in Hall; [| discriminate].
  exists out. apply Z.eqb_eq in Hall. split; [reflexivity |].
  split; [exact Hall |]. rewrite Hall. vm_compute. reflexivity.
Qed.

Lemma extract_relevant_sections_exceeds_budget_witness :
  exists out,
    extract_relevant_sections ascii_lower insertion_order long_corpus
      (py "Quels sont les horaires ?") 4000 = Ok out /\
    len out = 12016%Z /\ (4000 + len (NL :: py "...") < len out)%Z.
Proof.
  apply (extract_relevant_sections_exceeds_budget insertion_order).
  intros l. apply Permutation_refl.
Defined.

(** C6, at an input where it fails.  A line that is the section marker
    and nothing else makes the parse of the corpus raise [IndexError]:
    no context is returned, whatever the question and the budget. *)
Theorem extract_relevant_sections_bare_header
    (lower : pystr -> pystr) (set_iter : list pystr -> list pystr)
    (user_question : pystr) (max_chars : Z) :
  bare_header_corpus <> [] /\
  extract_relevant_sections lower set_iter bare_header_corpus user_question
    max_chars = Raise IndexError.
Proof. split; [discriminate | reflexivity]. Qed.

(** ** The page: what the gate and the validator do not guard *)

(** C2, at an input where it fails.  Eleven questions sent by one
    session in eleven consecutive time units reach the backend eleven
    times, all within the trailing window of 60; the limiter is never
    consulted, its storage stays empty. *)
Theorem eleven_requests_in_one_window :
  length (requests eleven_questions_world) = 11 /\
  Forall (fun r => 10 - fst r < RATE_LIMIT_WINDOW_SECONDS)%Z
         (requests eleven_questions_world) /\
  (RATE_LIMIT_REQUESTS
   < Z.of_nat (length (requests eleven_questions_world)))%Z /\
  rate_limit_storage eleven_questions_world = ∅ /\
  length (chat_history (session eleven_questions_world)) = 11.
Proof.
  assert (E : map fst (requests eleven_questions_world) = eleven_seconds)
    by (vm_compute; reflexivity).
  assert (L : length (requests eleven_questions_world) = 11).
  { rewrite <- (length_map fst), E. reflexivity. }
  split; [exact L |].
  split.
  { apply Forall_forall. intros r Hr.
    apply list_elem_of_In in Hr. apply (in_map fst) in Hr.
    rewrite E in Hr. unfold eleven_seconds, RATE_LIMIT_WINDOW_SECONDS in *.
    simpl in Hr.
    repeat (destruct Hr as [<- | Hr]; [lia |]). destruct Hr. }
  split; [rewrite L; unfold RATE_LIMIT_REQUESTS; lia |].
  split; vm_compute; reflexivity.
Qed.

(** C3, at inputs where it fails.  [validate_question] refuses a
    question of two characters, one of 504 characters and one made of
    a character repeated twelve times; the page never calls it: each of
    the three is sent to the backend and recorded as a turn, in the
    session and in the history file. *)
Theorem refused_questions_reach_backend :
  validate_question short_question = false /\
  validate_question long_question = false /\
  validate_question spam_question = false /\
  forallb refused_but_answered
    [short_question; long_question; spam_question] = true.
Proof.
  split; [vm_compute; reflexivity |].
  split; [vm_compute; reflexivity |].
  split; vm_compute; reflexivity.
Qed.

(** * Further properties *)

(** ** Input validation *)

Lemma run_too_short (pfx : pystr) :
  length pfx <= 10 -> ~ has_repeated_run pfx.
Proof.
  intros Hlen (c & i & _ & Hrun).
  specialize (Hrun 10 ltac:(lia)).
  apply lookup_lt_Some in Hrun. lia.
Qed.

(** A run that meets a character [x] it cannot contain lies after it. *)
Lemma run_after_break (pfx : pystr) (x : N) (rest : pystr) :
  length pfx <= 10 ->
  has_repeated_run (pfx ++ x :: rest) ->
  (exists c i, c <> NL /\ c = x /\ i <= length pfx /\
               forall j, j < 11 -> (pfx ++ x :: rest) !! (i + j) = Some c) \/
  has_repeated_run rest.
Proof.
  intros Hlen (c & i & Hc & Hrun).
  destruct (decide (i <= length pfx)) as [Hi | Hi].
  - left. exists c, i. repeat split; auto.
    specialize (Hrun (length pfx - i) ltac:(lia)).
    replace (i + (length pfx - i)) with (length pfx) in Hrun by lia.
    rewrite lookup_app_r in Hrun by lia.
    replace (length pfx - length pfx) with 0 in Hrun by lia.
    simpl in Hrun. congruence.
  - right. exists c, (i - length pfx - 1). split; [exact Hc |].
    intros j Hj. specialize (Hrun j Hj).
    rewrite lookup_app_r in Hrun by lia.
    replace (i + j - length pfx) with (S (i - length pfx - 1 + j)) in Hrun
      by lia.
    exact Hrun.
Qed.

Lemma run_shift (pfx s : pystr) :
  has_repeated_run s -> has_repeated_run (pfx ++ s).
Proof.
  intros (c & i & Hc & Hrun). exists c, (length pfx + i). split; [exact Hc |].
  intros j Hj. rewrite lookup_app_r by lia.
  replace (length pfx + i + j - length pfx) with (i + j) by lia. auto.
Qed.

Lemma repeated_run_cons (prev : option N) (count : nat) (c : N) (s : pystr) :
  repeated_run prev count (c :: s) =
  if (c =? NL)%N then repeated_run None 0 s
  else
    let count' :=
      match prev with
      | Some p => if (p =? c)%N then S count else 1
      | None => 1
      end in
    if (11 <=? count')%nat then true else repeated_run (Some c) count' s.
Proof. reflexivity. Qed.

(** The scan of [repeated_run], with [count] characters [prev] already
    read, finds a run exactly when there is one in what has been read
    followed by what is left. *)
Lemma repeated_run_scan (s : pystr) :
  forall (prev : option N) (count : nat),
    count <= 10 ->
    (forall p, prev = Some p -> p <> NL) ->
    repeated_run prev count s = true <->
    has_repeated_run (run_prefix prev count ++ s).
Proof.
  induction s as [|x s IH]; intros prev count Hcount Hprev.
  - simpl. rewrite app_nil_r. split; [discriminate |].
    intros H. exfalso. revert H. apply run_too_short.
    destruct prev; simpl; [rewrite length_replicate |]; lia.
  - assert (Hpl : length (run_prefix prev count) <= 10).
    { destruct prev; simpl; [rewrite length_replicate |]; lia. }
    rewrite repeated_run_cons. destruct (N.eqb_spec x NL) as [-> | Hx].
    + rewrite (IH None 0) by (try lia; intros p [=]). simpl run_prefix.
      split.
      * intros H. apply (run_shift (run_prefix prev count ++ [NL])) in H.
        rewrite <- app_assoc in H. exact H.
      * intros H. apply run_after_break in H; [| exact Hpl].
        destruct H as [(c & i & Hc & Heq & _) | H]; [congruence | exact H].
    + destruct prev as [p |]; [destruct (N.eqb_spec p x) as [-> | Hpx] |];
        cbv beta zeta iota.
      * (* the run goes on *)
        assert (Heq : run_prefix (Some x) count ++ x :: s
                      = run_prefix (Some x) (S count) ++ s).
        { unfold run_prefix. rewrite replicate_S_end, <- app_assoc. reflexivity. }
        rewrite Heq.
        destruct (Nat.leb_spec 11 (S count)) as [Hfull | Hmore].
        -- split; [intros _ | reflexivity].
           exists x, 0. split; [exact Hx |]. intros j Hj.
           unfold run_prefix. change (0 + j) with j.
           rewrite lookup_app_l by (rewrite length_replicate; lia).
           apply lookup_replicate_2. lia.
        -- apply IH; [lia |]. intros q [= <-]. exact Hx.
      * (* another character starts a run *)
        destruct (Nat.leb_spec 11 1) as [Habs | _]; [lia |].
        rewrite (IH (Some x) 1) by (try lia; intros q [= <-]; exact Hx).
        simpl run_prefix. split.
        -- intros H. apply (run_shift (replicate count p)) in H. exact H.
        -- intros H. apply run_after_break in H; [| exact Hpl].
           destruct H as [(c & i & Hc & Heq & Hi & Hrun) | H].
           ++ simpl in Hi, Hrun. rewrite length_replicate in Hi.
              destruct (decide (i = count)) as [-> | Hne].
              ** exists c, 0. split; [exact Hc |]. intros j Hj.
                 specialize (Hrun j Hj).
                 rewrite lookup_app_r in Hrun
                   by (rewrite length_replicate; lia).
                 rewrite length_replicate in Hrun.
                 replace (count + j - count) with j in Hrun by lia.
                 exact Hrun.
              ** exfalso. specialize (Hrun 0 ltac:(lia)).
                 rewrite Nat.add_0_r in Hrun.
                 rewrite lookup_app_l in Hrun
                   by (rewrite length_replicate; lia).
                 apply lookup_replicate in Hrun as [-> _]. congruence.
           ++ apply (run_shift [x]) in H. exact H.
      * (* the first character of a line *)
        destruct (Nat.leb_spec 11 1) as [Habs | _]; [lia |].
        rewrite (IH (Some x) 1) by (try lia; intros q [= <-]; exact Hx).
        reflexivity.
Qed.

(** X1. [validate_question] accepts a question exactly when its
    stripped length is at least 3, its length at most 500, and no
    character other than a line feed occurs eleven times in a row. *)
Theorem validate_question_accepts (question : pystr) :
  validate_question question = true <->
  (3 <= len (strip question))%Z /\
  (len question <= MAX_QUESTION_LENGTH)%Z /\
  ~ has_repeated_run question.
Proof.
  unfold validate_question.
  pose proof (repeated_run_scan question None 0 ltac:(lia)
                ltac:(intros p [=])) as Hscan.
  simpl run_prefix in Hscan. simpl app in Hscan.
  destruct question as [|c q].
  - simpl. split; [discriminate |]. intros [H _]. vm_compute in H.
    contradiction.
  - cbn [truthy negb orb].
    destruct (Z.ltb_spec (len (strip (c :: q))) 3) as [Hs | Hs].
    { split; [discriminate | intros [H _]; lia]. }
    destruct (Z.ltb_spec MAX_QUESTION_LENGTH (len (c :: q))) as [Hl | Hl].
    { split; [discriminate | intros (_ & H & _); lia]. }
    destruct (repeated_run None 0 (c :: q)) eqn:Hr.
    + split; [discriminate |]. intros (_ & _ & H). exfalso.
      apply H, Hscan. reflexivity.
    + split; [| reflexivity]. intros _. repeat split; try lia.
      intros H. apply Hscan in H. discriminate.
Qed.

(** ** Input sanitisation *)

Lemma Forall_lstrip (P : N -> Prop) (s : pystr) :
  Forall P s -> Forall P (lstrip s).
Proof.
  induction 1 as [|c s Hc Hs IH]; simpl; [constructor |].
  destruct (isspace c); [exact IH | constructor; assumption].
Qed.

Lemma Forall_strip (P : N -> Prop) (s : pystr) :
  Forall P s -> Forall P (strip s).
Proof.
  intros H. unfold strip, rstrip.
  apply Forall_rev, Forall_lstrip, Forall_rev, Forall_lstrip, H.
Qed.

Lemma Forall_slice_to (P : N -> Prop) (s : pystr) (n : Z) :
  Forall P s -> Forall P (slice_to s n).
Proof.
  intros H. unfold slice_to. destruct (0 <=? n)%Z; apply Forall_take, H.
Qed.

Lemma length_lstrip (s : pystr) : length (lstrip s) <= length s.
Proof.
  induction s as [|c s IH]; simpl; [lia |].
  destruct (isspace c); simpl; lia.
Qed.

Lemma len_strip (s : pystr) : (len (strip s) <= len s)%Z.
Proof.
  unfold len, strip, rstrip. rewrite length_rev.
  pose proof (length_lstrip (rev (lstrip s))) as H1.
  rewrite length_rev in H1. pose proof (length_lstrip s). lia.
Qed.

Lemma html_escape_char_quotes (c : N) :
  Forall (fun d => d <> 34%N /\ d <> 39%N /\ d <> 60%N /\ d <> 62%N)
         (html_escape_char c).
Proof.
  unfold html_escape_char.
  destruct (N.eqb_spec c 38); [repeat constructor; discriminate |].
  destruct (N.eqb_spec c 60); [repeat constructor; discriminate |].
  destruct (N.eqb_spec c 62); [repeat constructor; discriminate |].
  destruct (N.eqb_spec c 34); [repeat constructor; discriminate |].
  destruct (N.eqb_spec c 39); [repeat constructor; discriminate |].
  repeat constructor; assumption.
Qed.

Lemma remove_dangerous_harmless (text : pystr) :
  Forall (fun d => d <> 34%N /\ d <> 39%N /\ d <> 60%N /\ d <> 62%N) text ->
  Forall (fun c => harmless_char c = true) (remove_dangerous text).
Proof.
  intros H. apply Forall_forall. intros c Hc.
  apply list_elem_of_filter in Hc as [Hsafe Hin].
  rewrite Forall_forall in H. destruct (H c Hin) as (H34 & H39 & _).
  unfold harmless_char. unfold is_true in Hsafe. rewrite Hsafe. simpl.
  apply N.eqb_neq in H34, H39. rewrite H34, H39. reflexivity.
Qed.

(** X2. Whatever the input and the limit, the text that
    [sanitize_input] returns holds none of the characters
    [< > { } ( ) [ ] \ ] and no quote, single or double. *)
Theorem sanitize_input_harmless (text : pystr) (max_length : option Z) :
  Forall (fun c => harmless_char c = true) (sanitize_input text max_length).
Proof.
  unfold sanitize_input.
  destruct (negb (truthy text)); [constructor |]. cbv zeta.
  apply Forall_strip.
  assert (He : Forall (fun c => harmless_char c = true)
                      (remove_dangerous (html_escape text))).
  { apply remove_dangerous_harmless. unfold html_escape.
    apply Forall_flat_map. apply Forall_forall. intros c _.
    apply html_escape_char_quotes. }
  destruct max_length as [n |]; [| exact He].
  destruct (negb (n =? 0)%Z && (n <? len _)%Z); [| exact He].
  apply Forall_slice_to, He.
Qed.

(** X3. With a positive limit, the text returned is no longer than the
    limit. *)
Theorem sanitize_input_length (text : pystr) (n : Z) :
  (0 < n)%Z -> (len (sanitize_input text (Some n)) <= n)%Z.
Proof.
  intros Hn. unfold sanitize_input.
  destruct (negb (truthy text)); [unfold len; simpl; lia |]. cbv zeta.
  etransitivity; [apply len_strip |].
  destruct (Z.eqb_spec n 0) as [-> | _]; [lia |]. simpl negb. simpl andb.
  destruct (Z.ltb_spec n (len (remove_dangerous (html_escape text))))
    as [Hlt | Hge]; [| lia].
  unfold slice_to. destruct (Z.leb_spec 0 n); [| lia].
  unfold len. rewrite length_take. lia.
Qed.

Lemma sanitize_input_length_witness :
  (len (sanitize_input (py "<b>Bonjour</b> (stage) & 'notes'") (Some 12))
   <= 12)%Z.
Proof. apply sanitize_input_length. lia. Defined.

Lemma html_escape_plain (text : pystr) :
  Forall (fun c => plain_char c = true) text ->
  remove_dangerous (html_escape text) = text.
Proof.
  induction 1 as [|c s Hc Hs IH]; [reflexivity |].
  unfold html_escape in *. simpl flat_map.
  unfold plain_char, harmless_char in Hc.
  apply andb_true_iff in Hc as [Hc H38].
  apply andb_true_iff in Hc as [Hc H39].
  apply andb_true_iff in Hc as [Hd H34].
  assert (Hlt : (c =? 60)%N = false /\ (c =? 62)%N = false).
  { unfold dangerous_char in Hd. apply negb_true_iff in Hd.
    repeat (apply orb_false_iff in Hd as [Hd ?]). auto. }
  destruct Hlt as [H60 H62].
  apply negb_true_iff in H38, H39, H34.
  unfold html_escape_char. rewrite H38, H60, H62, H34, H39.
  simpl app. unfold remove_dangerous in *. rewrite filter_cons.
  destruct (decide _) as [_ | n]; [f_equal; exact IH |].
  exfalso. apply n. exact Hd.
Qed.

(** X4. A text made of characters that are neither escaped nor removed
    comes back stripped of its outer white space and otherwise
    unchanged, when no limit is given. *)
Theorem sanitize_input_plain (text : pystr) :
  Forall (fun c => plain_char c = true) text ->
  sanitize_input text None = strip text.
Proof.
  intros H. unfold sanitize_input.
  destruct text as [|c s]; [reflexivity |].
  cbn [truthy negb]. cbv zeta. rewrite html_escape_plain by exact H.
  reflexivity.
Qed.

Lemma sanitize_input_plain_witness :
  sanitize_input (py "  Quand commence le stage ?  ") None
  = strip (py "  Quand commence le stage ?  ").
Proof.
  apply sanitize_input_plain. apply Forall_forall. intros c Hc.
  apply list_elem_of_In in Hc.
  assert (H : forallb plain_char (py "  Quand commence le stage ?  ") = true)
    by (vm_compute; reflexivity).
  rewrite forallb_forall in H. apply H, Hc.
Defined.

(** ** The cache *)

(** X5. A value read back before its time to live is over is the value
    set, and the read leaves the cache as it is. *)
Theorem cache_get_fresh {A} (now t : Z) (key : pystr) (value : A)
    (cache : gmap pystr (A * Z)) :
  (now - t < CACHE_TTL_SECONDS)%Z ->
  SimpleCache.get now key (SimpleCache.set t key value cache)
  = (Some value, SimpleCache.set t key value cache).
Proof.
  intros Hfresh. unfold SimpleCache.get, SimpleCache.set.
  rewrite lookup_insert_eq.
  destruct (Z.ltb_spec (now - t) CACHE_TTL_SECONDS); [reflexivity | lia].
Qed.

Lemma cache_get_fresh_witness :
  SimpleCache.get 3599 (py "docs") (SimpleCache.set 0 (py "docs") 7 ∅)
  = (Some 7, SimpleCache.set 0 (py "docs") 7 ∅).
Proof. apply cache_get_fresh. unfold CACHE_TTL_SECONDS. lia. Defined.

(** X6. A value read once its time to live is over is a miss; the read
    removes the entry, so that every later read of the key is a miss
    too, at whatever time, and the other keys keep their entries. *)
Theorem cache_get_expired {A} (now t later : Z) (key other : pystr)
    (value : A) (cache : gmap pystr (A * Z)) :
  (CACHE_TTL_SECONDS <= now - t)%Z ->
  other <> key ->
  let read := SimpleCache.get now key (SimpleCache.set t key value cache) in
  fst read = None /\
  snd read !! key = None /\
  fst (SimpleCache.get later key (snd read)) = None /\
  snd read !! other = cache !! other.
Proof.
  intros Hold Hne. unfold SimpleCache.get, SimpleCache.set.
  rewrite lookup_insert_eq.
  destruct (Z.ltb_spec (now - t) CACHE_TTL_SECONDS); [lia |].
  cbv zeta. simpl. rewrite lookup_delete_eq.
  repeat split; try reflexivity.
  rewrite lookup_delete_ne, lookup_insert_ne by congruence. reflexivity.
Qed.

Lemma cache_get_expired_witness :
  fst (SimpleCache.get 3600 (py "docs")
         (SimpleCache.set 0 (py "docs") 7 ∅)) = None.
Proof.
  refine (proj1 (cache_get_expired 3600 0 0 (py "docs") (py "other") 7 ∅
                   _ _)).
  - unfold CACHE_TTL_SECONDS. lia.
  - discriminate.
Defined.

(** X7. A read never invents a value and never disturbs another key: a
    hit returns a value stored under the key less than the time to live
    ago and leaves the cache unchanged, and after any read every other
    key holds what it held. *)
Theorem cache_get_sound {A} (now : Z) (key : pystr)
    (cache : gmap pystr (A * Z)) :
  (forall value,
      fst (SimpleCache.get now key cache) = Some value ->
      exists t, cache !! key = Some (value, t) /\
                (now - t < CACHE_TTL_SECONDS)%Z /\
                snd (SimpleCache.get now key cache) = cache) /\
  (forall other,
      other <> key ->
      snd (SimpleCache.get now key cache) !! other = cache !! other).
Proof.
  unfold SimpleCache.get.
  destruct (cache !! key) as [[v t] |] eqn:E.
  - destruct (Z.ltb_spec (now - t) CACHE_TTL_SECONDS) as [Hlt | Hge];
      simpl; split.
    + intros value [= <-]. exists t. auto.
    + reflexivity.
    + discriminate.
    + intros other Hne. apply lookup_delete_ne. congruence.
  - simpl. split; [discriminate | reflexivity].
Qed.

(** ** Retries *)

Section RetryFacts.

Context {St A : Type}.
Variable func : St -> result A * St.
Variable sleep : Q -> St -> St.




End RetryFacts.



(** ** The rate limiter, between sessions and over time *)

Lemma rate_limit_storage_after {A} (func : M A) (w : World) :
  limiter_frame func ->
  let user_id := rate_user_id (session w) in
  let kept := prune (clock w) (rate_limit_storage w !!! user_id) in
  rate_limit_storage (snd (rate_limit func w)) =
  <[user_id := if decide (Z.of_nat (length kept) < RATE_LIMIT_REQUESTS)%Z
               then kept ++ [clock w] else kept]> (rate_limit_storage w).
Proof.
  intros Hframe user_id kept.
  pose proof (rate_limit_gate_spec func w) as Hs.
  unfold gate_spec in Hs. cbv zeta in Hs.
  fold user_id in Hs. fold kept in Hs.
  destruct (decide _) as [Hlt | Hge].
  - rewrite Hs. unfold bind.
    set (w1 := set_rate_limit_storage _ w).
    destruct (Hframe w1) as [Hst _].
    destruct (func w1) as [[r | e] w2]; simpl in *; rewrite Hst; reflexivity.
  - destruct Hs as [text ->]. reflexivity.
Qed.

(** X10. A gated call made by one session never changes the timestamps
    stored for another. *)
Theorem rate_limit_isolated {A} (func : M A) (w : World) (other : pystr) :
  limiter_frame func ->
  other <> rate_user_id (session w) ->
  rate_limit_storage (snd (rate_limit func w)) !! other
  = rate_limit_storage w !! other.
Proof.
  intros Hframe Hne. rewrite rate_limit_storage_after by exact Hframe.
  cbv zeta. apply lookup_insert_ne. congruence.
Qed.

Lemma rate_limit_isolated_witness :
  rate_limit_storage (snd (rate_limit (ret tt) fresh_world))
    !! py "another-session"
  = rate_limit_storage fresh_world !! py "another-session".
Proof.
  apply rate_limit_isolated; [apply ret_limiter_frame | discriminate].
Defined.

Lemma prune_within (now : Z) (l : list Z) :
  Forall (fun ts => now - ts < RATE_LIMIT_WINDOW_SECONDS)%Z (prune now l).
Proof.
  apply Forall_forall. intros ts Hts. unfold prune in Hts.
  apply list_elem_of_filter in Hts as [H _]. exact H.
Qed.

(** X11. After a gated call, allowed or denied, every timestamp stored
    for the session is younger than the window; and a session that had
    at most 10 timestamps stored still has at most 10. *)
Theorem rate_limit_window_kept {A} (func : M A) (w : World) :
  limiter_frame func ->
  Forall (fun ts => clock w - ts < RATE_LIMIT_WINDOW_SECONDS)%Z
         (rate_limit_storage (snd (rate_limit func w))
            !!! rate_user_id (session w)) /\
  (length (rate_limit_storage w !!! rate_user_id (session w)) <= 10 ->
   length (rate_limit_storage (snd (rate_limit func w))
             !!! rate_user_id (session w)) <= 10).
Proof.
  intros Hframe. rewrite rate_limit_storage_after by exact Hframe.
  cbv zeta. rewrite lookup_total_insert_eq.
  set (kept := prune _ _).
  assert (Hk : length kept
               <= length (rate_limit_storage w !!! rate_user_id (session w))).
  { unfold kept, prune. apply length_filter. }
  destruct (decide _) as [Hlt | Hge]; split.
  - apply Forall_app. split; [apply prune_within |].
    constructor; [unfold RATE_LIMIT_WINDOW_SECONDS; lia | constructor].
  - intros _. rewrite length_app. simpl.
    unfold RATE_LIMIT_REQUESTS in Hlt. lia.
  - apply prune_within.
  - lia.
Qed.

Lemma rate_limit_window_kept_witness :
  length (rate_limit_storage (snd (rate_limit (ret tt) fresh_world))
            !!! rate_user_id (session fresh_world)) <= 10.
Proof.
  refine (proj2 (rate_limit_window_kept (ret tt) fresh_world _) _).
  - apply ret_limiter_frame.
  - vm_compute. lia.
Defined.

(** ** The conversation store and its file *)








Lemma delete_conversation_session (cid : pystr) (w : World) :
  session (snd (delete_conversation_by_id cid w)) =
  (fun s => if str_eqb (conversation_id s) cid
            then set_current_conversation [] s else s)
    (set_chat_history
       (filter (fun entry =>
                  is_true (negb (str_eqb (turn_conversation_id entry) cid)))
               (chat_history (session w)))
       (session w)).
Proof.
  unfold delete_conversation_by_id, bind, modify_session, modify.
  cbn [fst snd].
  rewrite (proj2 (save_chat_history_session _)). reflexivity.
Qed.

(** X14. Deleting a conversation removes the turns that carry its id
    and no other: the history afterwards is the old one without them,
    in the same order, and deleting the same id again changes
    nothing. *)
Theorem delete_conversation_exact (cid : pystr) (w : World) :
  (forall t,
      t ∈ chat_history (session (snd (delete_conversation_by_id cid w))) <->
      t ∈ chat_history (session w) /\ turn_conversation_id t <> cid) /\
  sublist (chat_history (session (snd (delete_conversation_by_id cid w))))
          (chat_history (session w)) /\
  session (snd (delete_conversation_by_id cid
                  (snd (delete_conversation_by_id cid w))))
  = session (snd (delete_conversation_by_id cid w)).
Proof.
  rewrite (delete_conversation_session cid
             (snd (delete_conversation_by_id cid w))).
  rewrite (delete_conversation_session cid w). cbv beta.
  set (kept := filter _ (chat_history (session w))).
  assert (Hhist : chat_history
                    (if str_eqb (conversation_id
                                   (set_chat_history kept (session w))) cid
                     then set_current_conversation []
                            (set_chat_history kept (session w))
                     else set_chat_history kept (session w)) = kept).
  { destruct (str_eqb _ _); reflexivity. }
  split; [| split].
  - intros t. rewrite Hhist. unfold kept. rewrite list_elem_of_filter.
    unfold is_true. rewrite negb_true_iff, str_eqb_neq. tauto.
  - rewrite Hhist. apply sublist_filter.
  - assert (Hk : filter
                   (fun entry =>
                      is_true (negb (str_eqb (turn_conversation_id entry)
                                             cid))) kept = kept).
    { unfold kept. rewrite list_filter_filter.
      apply list_filter_iff. intros t. tauto. }
    simpl conversation_id.
    destruct (str_eqb (conversation_id (session w)) cid) eqn:E; simpl;
      rewrite E; simpl; rewrite Hk; reflexivity.
Qed.

(** ** Answering a question *)

(** Whatever the backend does, the loop sends one request to each of
    the first [k] candidates and changes nothing else. *)
Lemma fallback_loop_world (client : Client) (temperature : Q)
    (messages : list Message) (candidates : list pystr) :
  forall (last_error : option exn) (w : World),
  exists k,
    k <= length candidates /\
    snd (fallback_loop client temperature messages candidates last_error w)
    = set_requests
        (requests w
         ++ sent_at (clock w) temperature messages (take k candidates)) w.
Proof.
  induction candidates as [|m rest IH]; intros last_error w.
  - exists 0. split; [simpl; lia |]. simpl. rewrite app_nil_r.
    destruct w; destruct last_error; reflexivity.
  - cbn [fallback_loop]. unfold try_except. rewrite attempt_eq.
    destruct (attempt_outcome _ _ _) as [text | e].
    + exists 1. split; [simpl; lia |]. reflexivity.
    + destruct (IH (Some e)
                  (set_requests
                     (requests w ++ sent_at (clock w) temperature messages [m])
                     w)) as (k & Hk & Hw).
      exists (S k). split; [simpl; lia |]. rewrite Hw.
      unfold set_requests. simpl. rewrite <- app_assoc. reflexivity.
Qed.

Lemma length_last_n {A} (n : nat) (l : list A) : length (last_n n l) <= n.
Proof. unfold last_n. rewrite length_skipn. lia. Qed.

Section AskFacts.

Variable lower : pystr -> pystr.
Variable set_iter : list pystr -> list pystr.

(** X15. Whatever the backend answers, [ask_rag_question] changes the
    world only by the requests it sends: at most one per model of the
    list, each with the temperature of the questions, a system message
    first, at most six messages of history and the question last.  The
    session, the page, the history file and the limiter are left as
    they were. *)
Theorem ask_rag_question_requests (client : Client)
    (documents_context user_question lang : pystr)
    (conversation_history : list Message) (w : World) :
  exists new,
    snd (ask_rag_question lower set_iter client documents_context
           user_question lang conversation_history w)
    = set_requests (requests w ++ new) w /\
    length new <= length MODEL_CANDIDATES /\
    Forall (fun sent => fst sent = clock w /\
                        question_request user_question (snd sent)) new.
Proof.
  assert (Hnone : exists new : list (Z * Request),
             w = set_requests (requests w ++ new) w /\
             length new <= length MODEL_CANDIDATES /\
             Forall (fun sent => fst sent = clock w /\
                                 question_request user_question (snd sent))
                    new).
  { exists []. rewrite app_nil_r. split; [destruct w; reflexivity |].
    split; [simpl; lia | constructor]. }
  unfold ask_rag_question. cbv zeta.
  set (generate := bind (get_text (py "not_found")) _).
  assert (Hgen : exists new,
             snd (generate w) = set_requests (requests w ++ new) w /\
             length new <= length MODEL_CANDIDATES /\
             Forall (fun sent => fst sent = clock w /\
                                 question_request user_question (snd sent))
                    new).
  { unfold generate, bind, get_text, lift. cbn [fst snd].
    destruct (extract_relevant_sections lower set_iter documents_context
                user_question 4000) as [context | e]; [| exact Hnone].
    unfold chat_completion_with_fallback.
    match goal with
    | |- context [fallback_loop client QA_TEMPERATURE ?msgs _ None w] =>
        destruct (fallback_loop_world client QA_TEMPERATURE msgs
                    MODEL_CANDIDATES None w) as (k & Hk & Hw);
        destruct (fallback_loop client QA_TEMPERATURE msgs MODEL_CANDIDATES
                    None w) as [[answer | e] w'] eqn:E;
        simpl in Hw; subst w';
        exists (sent_at (clock w) QA_TEMPERATURE msgs
                  (take k MODEL_CANDIDATES));
        (split; [reflexivity |]);
        (split; [unfold sent_at; rewrite length_map, length_take; lia |]);
        apply Forall_forall; intros sent Hsent;
        apply list_elem_of_In in Hsent; unfold sent_at in Hsent;
        apply in_map_iff in Hsent as (m & <- & Hm);
        (split; [reflexivity |]);
        (split; [reflexivity |]);
        (split; [apply list_elem_of_In, (subseteq_take k),
                   list_elem_of_In, Hm |]);
        eexists _, _, context; (split; [reflexivity |]);
        (destruct (truthy conversation_history);
           [apply length_last_n | simpl; lia])
    end. }
  destruct (quick_conversation_reply lower user_question lang) as [reply |];
    [| exact Hgen].
  destruct (truthy reply); [exact Hnone | exact Hgen].
Qed.



End AskFacts.


(** ** The page: one question, one turn or none *)

Section PageFacts.

Variable lower : pystr -> pystr.
Variable set_iter : list pystr -> list pystr.

(** The block of the page, once the input and the corpus are known not
    to be empty. *)
Lemma main_process_question_eq (client : Client)
    (documents_context question_text now_iso : pystr) (w : World) :
  question_text <> [] ->
  documents_context <> [] ->
  main_process_question lower set_iter client documents_context
    (Some question_text) now_iso w =
  match ask_rag_question lower set_iter client documents_context
          (strip question_text) (lang_code (language (session w)))
          (conv_history_of (current_conversation (session w)))
          (set_page (page w ++ [UiMarkdown question_text]) w) with
  | (Ok rag_answer, w2) =>
      add_to_chat_history now_iso (strip question_text) rag_answer
        (set_page (page w2 ++ [UiMarkdown rag_answer]) w2)
  | (Raise error, w2) =>
      (Ok tt,
       set_page (page w2 ++ [UiError (py "❌ Error: " ++ exn_text error)]) w2)
  end.
Proof.
  intros Hq Hd.
  destruct question_text as [|c q]; [contradiction |].
  destruct documents_context as [|d ds]; [contradiction |].
  unfold main_process_question. cbn [truthy negb].
  unfold try_except, bind, st_show, modify, get_text. cbn [fst snd].
  change (session (set_page (page w ++ [UiMarkdown (c :: q)]) w))
    with (session w).
  destruct (ask_rag_question _ _ _ _ _ _ _ _) as [[a | e] w2];
    [| reflexivity].
  pose proof (run_op_ok (OpAppend now_iso (strip (c :: q)) a)
                (set_page (page w2 ++ [UiMarkdown a]) w2)) as Hok.
  cbn [run_op] in Hok.
  destruct (add_to_chat_history _ _ _ _) as [[[] | e] w3]; cbn [fst] in Hok;
    [reflexivity | discriminate].
Qed.

(** X17. For a question typed with a corpus loaded, the page records a
    turn exactly when [ask_rag_question] returns: then one turn, with
    the stripped question, that answer and the active conversation id,
    is appended to the history and to the conversation on display; when
    it raises, the session and the history file are left as they were
    and the error is shown on the page. *)
Theorem main_one_turn_or_none (client : Client)
    (documents_context question_text now_iso : pystr) (w : World) :
  question_text <> [] ->
  documents_context <> [] ->
  (forall rag_answer,
      fst (ask_rag_question lower set_iter client documents_context
             (strip question_text) (lang_code (language (session w)))
             (conv_history_of (current_conversation (session w)))
             (set_page (page w ++ [UiMarkdown question_text]) w))
      = Ok rag_answer ->
      chat_history
        (session (snd (main_process_question lower set_iter client
                         documents_context (Some question_text) now_iso w)))
      = chat_history (session w)
        ++ [mk_turn now_iso (conversation_id (session w))
              (strip question_text) rag_answer] /\
      current_conversation
        (session (snd (main_process_question lower set_iter client
                         documents_context (Some question_text) now_iso w)))
      = current_conversation (session w)
        ++ [mk_turn now_iso (conversation_id (session w))
              (strip question_text) rag_answer]) /\
  (forall error,
      fst (ask_rag_question lower set_iter client documents_context
             (strip question_text) (lang_code (language (session w)))
             (conv_history_of (current_conversation (session w)))
             (set_page (page w ++ [UiMarkdown question_text]) w))
      = Raise error ->
      session (snd (main_process_question lower set_iter client
                      documents_context (Some question_text) now_iso w))
      = session w /\
      chat_file (snd (main_process_question lower set_iter client
                        documents_context (Some question_text) now_iso w))
      = chat_file w /\
      page (snd (main_process_question lower set_iter client
                   documents_context (Some question_text) now_iso w))
      = page w ++ [UiMarkdown question_text;
                   UiError (py "❌ Error: " ++ exn_text error)]).
Proof.
  intros Hq Hd.
  rewrite (main_process_question_eq client documents_context question_text
             now_iso w Hq Hd).
  set (w1 := set_page (page w ++ [UiMarkdown question_text]) w).
  destruct (ask_rag_question_requests lower set_iter client documents_context
              (strip question_text) (lang_code (language (session w)))
              (conv_history_of (current_conversation (session w))) w1)
    as (new & Hw & _).
  destruct (ask_rag_question lower set_iter client documents_context
              (strip question_text) (lang_code (language (session w)))
              (conv_history_of (current_conversation (session w))) w1)
    as [[a | e] w2]; cbn [fst snd] in *; subst w2; split.
  - intros rag_answer [= <-].
    unfold add_to_chat_history, bind, modify_session, modify.
    cbn [fst snd].
    rewrite (proj2 (save_chat_history_session _)). split; reflexivity.
  - discriminate.
  - discriminate.
  - intros error [= <-]. repeat split. simpl. rewrite <- app_assoc.
    reflexivity.
Qed.

End PageFacts.

Lemma main_one_turn_or_none_witness :
  chat_history
    (session (snd (main_process_question ascii_lower insertion_order
                     echo_client small_corpus
                     (Some (py " Quels sont les horaires ? "))
                     (py "2026-01-01T09:00:05") fresh_world)))
  = chat_history (session fresh_world)
    ++ [mk_turn (py "2026-01-01T09:00:05")
          (conversation_id (session fresh_world))
          (strip (py " Quels sont les horaires ? "))
          (py "Voir le service de scolarité.")].
Proof.
  refine (proj1 (proj1 (main_one_turn_or_none ascii_lower insertion_order
                          echo_client small_corpus
                          (py " Quels sont les horaires ? ")
                          (py "2026-01-01T09:00:05") fresh_world _ _)
                   (py "Voir le service de scolarité.") _)).
  - discriminate.
  - discriminate.
  - vm_compute. reflexivity.
Defined.

(** ** Context selection without headers *)

Lemma parse_lines_no_header (lines : list pystr) (d : list (pystr * pystr))
    (content : list pystr) :
  Forall (fun line => startswith (py "SECTION ") line = false) lines ->
  parse_lines (mk_parse_state d None content) lines
  = Ok (mk_parse_state d None content).
Proof.
  induction 1 as [|line lines Hline Hlines IH]; [reflexivity |].
  cbn [parse_lines]. unfold parse_line. rewrite Hline. simpl. exact IH.
Qed.

Lemma collect_sections_no_section (keys : list pystr) (max_chars : Z) :
  collect_sections keys max_chars [] = mk_budget [] 0.
Proof.
  unfold collect_sections. induction keys as [|k keys IH]; [reflexivity |].
  simpl. exact IH.
Qed.

(** X18. A corpus none of whose lines starts with the section marker
    yields its own first [max_chars] characters, whatever the question:
    the last fallback of the selector. *)
Theorem extract_relevant_sections_headerless
    (lower : pystr -> pystr) (set_iter : list pystr -> list pystr)
    (full_context user_question : pystr) (max_chars : Z) :
  Forall (fun line => startswith (py "SECTION ") line = false)
         (split_char NL full_context) ->
  extract_relevant_sections lower set_iter full_context user_question
    max_chars = Ok (slice_to full_context max_chars).
Proof.
  intros Hlines. unfold extract_relevant_sections, parse_sections.
  cbv zeta. rewrite (parse_lines_no_header _ [] [] Hlines). simpl.
  rewrite collect_sections_no_section. reflexivity.
Qed.

Lemma extract_relevant_sections_headerless_witness :
  extract_relevant_sections ascii_lower insertion_order plain_corpus
    (py "inscription") 20 = Ok (slice_to plain_corpus 20).
Proof.
  apply extract_relevant_sections_headerless.
  apply Forall_forall. intros line Hline. apply list_elem_of_In in Hline.
  assert (H : forallb (fun l => negb (startswith (py "SECTION ") l))
                      (split_char NL plain_corpus) = true)
    by (vm_compute; reflexivity).
  rewrite forallb_forall in H. apply negb_true_iff, H, Hline.
Defined.

(** ** Quick replies: what is not matched *)

Lemma runs_none (p : N -> bool) (s : pystr) :
  Forall (fun c => p c = false) s -> runs p s = [].
Proof.
  induction 1 as [|c s Hc Hs IH]; [reflexivity |].
  simpl. rewrite Hc. exact IH.
Qed.

Lemma str_mem_In (x : pystr) (xs : list pystr) :
  str_mem x xs = true -> In x xs.
Proof.
  unfold str_mem. rewrite existsb_exists. intros (y & Hy & Heq).
  apply str_eqb_eq in Heq. subst y. exact Hy.
Qed.

Lemma vocabulary_has_token_char :
  forallb (existsb token_char) (greetings ++ thanks) = true.
Proof. vm_compute. reflexivity. Qed.

(** X19. A question whose normalised text holds no character of
    [[a-z0-9']] -- white space, punctuation, capitals that [lower] left
    alone, other scripts -- gets no quick reply, in any language. *)
Theorem quick_conversation_reply_no_token
    (lower : pystr -> pystr) (question language : pystr) :
  Forall (fun c => token_char c = false) (normalized lower question) ->
  quick_conversation_reply lower question language = None.
Proof.
  intros Hnone. unfold quick_conversation_reply. cbv zeta.
  destruct (truthy (normalized lower question)); [| reflexivity].
  cbn [negb].
  assert (Hvoc : forall words,
            (forall w, In w words -> In w (greetings ++ thanks)) ->
            str_mem (normalized lower question) words = false).
  { intros words Hsub.
    destruct (str_mem _ words) eqn:E; [| reflexivity].
    apply str_mem_In in E. apply Hsub in E.
    pose proof vocabulary_has_token_char as Hall.
    rewrite forallb_forall in Hall. specialize (Hall _ E).
    apply existsb_exists in Hall as (c & Hc & Htok).
    rewrite Forall_forall in Hnone.
    rewrite (Hnone c (proj2 (list_elem_of_In _ _) Hc)) in Htok.
    discriminate. }
  unfold is_greeting, is_thanks, tokens_of.
  rewrite (runs_none _ _ Hnone).
  rewrite (Hvoc greetings), (Hvoc thanks); [reflexivity | |];
    intros w Hw; apply in_or_app; auto.
Qed.

Lemma quick_conversation_reply_no_token_witness :
  quick_conversation_reply ascii_lower (py "  ?!  ... ") (py "FR") = None.
Proof.
  apply quick_conversation_reply_no_token.
  apply Forall_forall. intros c Hc. apply list_elem_of_In in Hc.
  assert (H : forallb (fun c => negb (token_char c))
                      (normalized ascii_lower (py "  ?!  ... ")) = true)
    by (vm_compute; reflexivity).
  rewrite forallb_forall in H. apply negb_true_iff, H, Hc.
Defined.

(** ** The emails generated *)

Lemma save_email_history_history (s : EmailStore) :
  es_history (save_email_history s) = es_history s.
Proof. unfold save_email_history. destruct (es_disk_ok s); reflexivity. Qed.

Lemma delete_rev {A} (l : list A) (idx : nat) :
  idx < length l ->
  delete (length l - 1 - idx) l = rev (delete idx (rev l)).
Proof.
  intros Hidx. rewrite !delete_take_drop, rev_app_distr.
  change (@drop A) with (@skipn A). change (@take A) with (@firstn A).
  rewrite skipn_rev, firstn_rev, !rev_involutive.
  replace (length l - S idx) with (length l - 1 - idx) by lia.
  replace (S (length l - 1 - idx)) with (length l - idx) by lia.
  reflexivity.
Qed.

(** X20. In the history tab the emails are shown newest first, and the
    button under the email at position [idx] of that display deletes
    that email and no other, the rest keeping their order.  An index
    outside the list deletes nothing, writes nothing and warns of
    nothing. *)
Theorem delete_email_by_index_display (s : EmailStore) (idx : nat)
    (index : Z) :
  (idx < length (es_history s) ->
   es_history (delete_email_by_index (original_index s idx) s)
   = rev (delete idx (rev (es_history s)))) /\
  ((index < 0 \/ Z.of_nat (length (es_history s)) <= index)%Z ->
   delete_email_by_index index s = s).
Proof.
  split.
  - intros Hidx. unfold delete_email_by_index, original_index.
    destruct (Z.leb_spec 0 (Z.of_nat (length (es_history s)) - 1
                            - Z.of_nat idx)); [| lia].
    destruct (Z.ltb_spec (Z.of_nat (length (es_history s)) - 1
                          - Z.of_nat idx)
                         (Z.of_nat (length (es_history s)))); [| lia].
    cbn [andb]. rewrite save_email_history_history. cbn [es_history].
    replace (Z.to_nat (Z.of_nat (length (es_history s)) - 1 - Z.of_nat idx))
      with (length (es_history s) - 1 - idx) by lia.
    apply delete_rev, Hidx.
  - intros Hout. unfold delete_email_by_index.
    destruct (Z.leb_spec 0 index); [| reflexivity].
    destruct (Z.ltb_spec index (Z.of_nat (length (es_history s))));
      [lia | reflexivity].
Qed.

Lemma delete_email_by_index_display_witness :
  es_history (delete_email_by_index (original_index three_emails 0)
                three_emails)
  = rev (delete 0 (rev (es_history three_emails))).
Proof.
  refine (proj1 (delete_email_by_index_display three_emails 0 0) _).
  simpl. lia.
Defined.

(** ** Answers come back trimmed *)

Lemma lstrip_head (s : pystr) (c : N) (rest : pystr) :
  lstrip s = c :: rest -> isspace c = false.
Proof.
  induction s as [|x s IH]; simpl; [discriminate |].
  destruct (isspace x) eqn:E; [exact IH |].
  intros [= <- <-]. exact E.
Qed.

Lemma lstrip_keeps_last (a : pystr) (c : N) :
  isspace c = false -> exists x, lstrip (a ++ [c]) = x ++ [c].
Proof.
  intros Hc. induction a as [|y a IH]; simpl.
  - rewrite Hc. exists []. reflexivity.
  - destruct (isspace y); [exact IH |]. exists (y :: a). reflexivity.
Qed.

Lemma strip_trimmed (s : pystr) : trimmed (strip s).
Proof.
  unfold strip, rstrip. split.
  - intros c rest Heq.
    destruct (lstrip s) as [|d t] eqn:El.
    + simpl in Heq. discriminate.
    + pose proof (lstrip_head s d t El) as Hd.
      change (rev (d :: t)) with (rev t ++ [d]) in Heq.
      destruct (lstrip_keeps_last (rev t) d Hd) as [x Hx].
      rewrite Hx, rev_app_distr in Heq. simpl in Heq.
      injection Heq as <- _. exact Hd.
  - intros c front Heq.
    apply (f_equal (@rev N)) in Heq.
    rewrite rev_involutive, rev_app_distr in Heq. simpl in Heq.
    exact (lstrip_head _ _ _ Heq).
Qed.

Lemma fallback_loop_stripped (client : Client) (temperature : Q)
    (messages : list Message) (candidates : list pystr) :
  forall (last_error : option exn) (w : World) (text : pystr),
    fst (fallback_loop client temperature messages candidates last_error w)
    = Ok text ->
    exists raw, text = strip raw.
Proof.
  induction candidates as [|m rest IH]; intros last_error w text.
  - simpl. destruct last_error; discriminate.
  - cbn [fallback_loop]. unfold try_except. rewrite attempt_eq.
    unfold attempt_outcome.
    destruct (client _ _) as [[|choice more] | e].
    + apply IH.
    + cbn [fst]. intros [= <-]. eexists. reflexivity.
    + apply IH.
Qed.

(** X21. A text that [chat_completion_with_fallback] returns neither
    starts nor ends with white space, whatever the backend sent. *)
Theorem chat_completion_trimmed (client : Client) (temperature : Q)
    (messages : list Message) (w : World) (text : pystr) :
  fst (chat_completion_with_fallback client temperature messages w)
  = Ok text ->
  trimmed text.
Proof.
  intros H. apply fallback_loop_stripped in H as [raw ->].
  apply strip_trimmed.
Qed.

Lemma chat_completion_trimmed_witness : trimmed (py "Bonjour").
Proof.
  apply (chat_completion_trimmed second_model_client QA_TEMPERATURE []
           fresh_world).
  reflexivity.
Defined.

(** ** Session timeout *)

(** X22. The first check of a session, and any check made no more than
    30 minutes after the activity last recorded, reports no time-out
    and records the present time as the last activity. *)
Theorem check_session_timeout_active (now : Z) (new_id : pystr)
    (s : Activity) :
  (forall last, last_activity s = Some last ->
                (now - last <= minutes SESSION_TIMEOUT_MINUTES)%Z) ->
  check_session_timeout now new_id s
  = (false, mk_activity (act_session_id s) (Some now)).
Proof.
  intros Hrecent. unfold check_session_timeout.
  destruct (last_activity s) as [last |]; [| reflexivity].
  specialize (Hrecent last eq_refl). cbv zeta.
  destruct (Z.ltb_spec (minutes SESSION_TIMEOUT_MINUTES) (now - last));
    [lia | reflexivity].
Qed.

Lemma check_session_timeout_active_witness :
  check_session_timeout 1800000000%Z (py "id")
    (mk_activity (Some (py "3f2a9c0d1b7e4a65")) (Some 0%Z))
  = (false,
     mk_activity (Some (py "3f2a9c0d1b7e4a65")) (Some 1800000000%Z)).
Proof.
  apply check_session_timeout_active.
  intros last [= <-]. vm_compute. discriminate.
Defined.

(** X23. A time-out does not refresh the last activity: once a check
    has reported a time-out, every later check made at the same or a
    later time reports it too. *)
Theorem check_session_timeout_sticky (now : Z) (new_id : pystr)
    (s : Activity) (times : list Z) :
  fst (check_session_timeout now new_id s) = true ->
  Forall (fun t => now <= t)%Z times ->
  Forall (fun timed_out => timed_out = true)
         (fst (checks_at new_id times
                 (snd (check_session_timeout now new_id s)))).
Proof.
  unfold check_session_timeout.
  destruct (last_activity s) as [last |] eqn:El; [| discriminate].
  cbv zeta.
  destruct (Z.ltb_spec (minutes SESSION_TIMEOUT_MINUTES) (now - last))
    as [Hout | Hin]; [| discriminate].
  intros _ Hlater. cbn [snd].
  set (sid := match act_session_id s with
              | Some sid => Some sid
              | None => Some new_id
              end).
  assert (Hsid : forall o : option pystr,
            match match o with Some x => Some x | None => Some new_id end
            with Some x => Some x | None => Some new_id end
            = match o with Some x => Some x | None => Some new_id end)
    by (intros [x |]; reflexivity).
  assert (Hgen : forall o,
            Forall (fun timed_out => timed_out = true)
              (fst (checks_at new_id times
                      (mk_activity
                         (match o with
                          | Some x => Some x | None => Some new_id end)
                         (Some last))))).
  { induction Hlater as [|t times Ht Hts IH]; intros o; [constructor |].
    cbn [checks_at]. unfold check_session_timeout. cbn [last_activity].
    cbv zeta.
    destruct (Z.ltb_spec (minutes SESSION_TIMEOUT_MINUTES) (t - last));
      [| lia].
    cbn [fst snd act_session_id last_activity]. constructor; [reflexivity |].
    rewrite Hsid. apply IH. }
  apply Hgen.
Qed.

Lemma check_session_timeout_sticky_witness :
  Forall (fun timed_out => timed_out = true)
    (fst (checks_at (py "id") [1900000000; 1900000001]%Z
            (snd (check_session_timeout 1800000001%Z (py "id")
                    (mk_activity None (Some 0%Z)))))).
Proof.
  apply check_session_timeout_sticky.
  - reflexivity.
  - repeat constructor; lia.
Defined.

(** ** Email generation *)

(** X24. With no corpus at all, an email is still asked of the backend:
    [generate_administrative_email] is then the fallback chain on the
    two messages built with an empty context, at the temperature of the
    emails, whatever the type of email and the language. *)
Theorem generate_email_without_corpus
    (lower : pystr -> pystr) (set_iter : list pystr -> list pystr)
    (client : Client) (email_type' lang : pystr) (w : World) :
  generate_administrative_email lower set_iter client email_type' [] lang w
  = chat_completion_with_fallback client EMAIL_TEMPERATURE
      (email_messages lang email_type' []) w.
Proof.
  unfold generate_administrative_email, bind, lift.
  rewrite (extract_relevant_sections_headerless lower set_iter []
             email_type' 3000)
    by (repeat constructor).
  reflexivity.
Qed.

(** ** Analytics *)

Lemma last_n_snoc {A} (n : nat) (l : list A) (x : A) :
  0 < n -> exists front, last_n n (l ++ [x]) = front ++ [x].
Proof.
  intros Hn. unfold last_n. rewrite length_app. simpl.
  replace (length l + 1 - n) with (length l - (n - 1)) by lia.
  rewrite skipn_app.
  replace (length l - (n - 1) - length l) with 0 by lia. simpl.
  eexists. reflexivity.
Qed.

(** X25. The analytics file never outgrows its bound: starting from no
    file, from a content that cannot be used or from at most 1000
    events, it holds at most 1000 events after any sequence of calls,
    whether the writes succeed or not. *)
Theorem track_analytics_bounded {Event : Type}
    (calls' : list (Event * bool)) (file : analytics_file Event) :
  analytics_size file <= 1000 ->
  analytics_size (track_all calls' file) <= 1000.
Proof.
  revert file. unfold track_all.
  induction calls' as [|[e ok] rest IH]; intros file Hsize; [exact Hsize |].
  simpl. apply IH. unfold track_analytics. cbn [fst snd].
  destruct file as [| | old]; destruct ok; simpl in *;
    try lia; apply length_last_n.
Qed.

Lemma track_analytics_bounded_witness :
  analytics_size
    (track_all [(py "question", true); (py "email", false)] NoAnalytics)
  <= 1000.
Proof. apply track_analytics_bounded. simpl. lia. Defined.

(** X26. A call that can read and write the file leaves the new event
    last in it; a file that cannot be used is left as it is, the event
    being dropped without an exception. *)
Theorem track_analytics_last {Event : Type} (event_data : Event)
    (file : analytics_file Event) :
  (file <> UnusableAnalytics ->
   exists front,
     track_analytics event_data true file
     = AnalyticsEvents (front ++ [event_data])) /\
  (forall write_ok,
      track_analytics event_data write_ok UnusableAnalytics
      = UnusableAnalytics).
Proof.
  split; [| reflexivity].
  intros Husable. unfold track_analytics.
  destruct file as [| | old]; [| contradiction |].
  - exists []. reflexivity.
  - destruct (last_n_snoc 1000 old event_data ltac:(lia)) as [front ->].
    exists front. reflexivity.
Qed.

(** ** Loading the history *)

Lemma obj_get_set (d : list (pystr * json)) (k : pystr) (v : json) :
  obj_get (obj_set d k v) k = Some v.
Proof.
  induction d as [|[k' v'] d IH]; simpl.
  - rewrite str_eqb_refl. reflexivity.
  - destruct (str_eqb k' k) eqn:E; simpl.
    + rewrite str_eqb_refl. reflexivity.
    + rewrite E. exact IH.
Qed.

Lemma migrate_entry_record (now_iso : pystr) (entry : json) :
  turn_record entry ->
  exists entry',
    migrate_entry now_iso entry = Loaded entry' /\
    (exists id, entry_conversation_id entry' = Some id) /\
    (forall id, entry_conversation_id entry = Some id -> entry' = entry) /\
    (entry_conversation_id entry = None ->
     forall d, entry = JObject d ->
     entry_conversation_id entry'
     = Some (JString
               (id_of_timestamp
                  (match obj_get d (py "timestamp") with
                   | Some (JString t) => t
                   | _ => now_iso
                   end)))) /\
    migrate_entry now_iso entry' = Loaded entry'.
Proof.
  destruct entry as [| | | | | d]; try contradiction.
  unfold turn_record. cbn [entry_conversation_id].
  destruct (obj_get d (py "conversation_id")) as [id |] eqn:Eid.
  - intros _. exists (JObject d). unfold migrate_entry. rewrite Eid.
    cbn [entry_conversation_id]. rewrite Eid.
    repeat split; eauto. discriminate.
  - assert (Hnew : forall t,
              let entry' :=
                JObject (obj_set d (py "conversation_id")
                           (JString (id_of_timestamp t))) in
              (exists id, entry_conversation_id entry' = Some id) /\
              entry_conversation_id entry'
              = Some (JString (id_of_timestamp t)) /\
              migrate_entry now_iso entry' = Loaded entry').
    { intros t entry'. subst entry'. unfold migrate_entry.
      cbn [entry_conversation_id]. rewrite obj_get_set. eauto. }
    unfold migrate_entry. rewrite Eid.
    destruct (obj_get d (py "timestamp")) as [[| | | t | |] |] eqn:Et;
      try contradiction; intros _.
    + destruct (Hnew t) as (H1 & H2 & H3).
      eexists. split; [reflexivity |]. split; [exact H1 |].
      split; [discriminate |]. split; [| exact H3].
      intros _ d' [= <-]. rewrite Et. exact H2.
    + destruct (Hnew now_iso) as (H1 & H2 & H3).
      eexists. split; [reflexivity |]. split; [exact H1 |].
      split; [discriminate |]. split; [| exact H3].
      intros _ d' [= <-]. rewrite Et. exact H2.
Qed.

(** X27. A history file that holds a list of turn records is loaded
    without an exception and entry by entry: as many entries, in the
    same order; each one that had a conversation id comes back
    unchanged; each one that had none comes back with the id made of
    the first 16 characters of its time stamp without [':'] and ['-'];
    and loading what was loaded changes nothing more. *)
Theorem load_chat_history_migrates (now_iso : pystr) (data : list json) :
  Forall turn_record data ->
  exists data',
    load_chat_history now_iso (HistoryJson (JArray data)) = Loaded data' /\
    Forall2
      (fun entry entry' =>
         (exists id, entry_conversation_id entry' = Some id) /\
         (forall id, entry_conversation_id entry = Some id ->
                     entry' = entry) /\
         (entry_conversation_id entry = None ->
          forall d, entry = JObject d ->
          entry_conversation_id entry'
          = Some (JString
                    (id_of_timestamp
                       (match obj_get d (py "timestamp") with
                        | Some (JString t) => t
                        | _ => now_iso
                        end)))))
      data data' /\
    forall later,
      load_chat_history later (HistoryJson (JArray data')) = Loaded data'.
Proof.
  unfold load_chat_history.
  induction 1 as [|entry data Hentry Hdata IH].
  - exists []. repeat split; constructor.
  - destruct IH as (data' & Hload & Hall & Hidem).
    destruct (migrate_entry_record now_iso entry Hentry)
      as (entry' & He & Hid & Hsame & Hnew & Hfix).
    exists (entry' :: data'). cbn [migrate_entries].
    rewrite He, Hload. split; [reflexivity |]. split.
    + constructor; [| exact Hall]. repeat split; assumption.
    + intros later. cbn [migrate_entries]. rewrite (Hidem later).
      destruct Hid as [id Hid].
      destruct entry' as [| | | | | d']; try discriminate.
      unfold migrate_entry. simpl in Hid. rewrite Hid. reflexivity.
Qed.

Lemma load_chat_history_migrates_witness :
  exists data',
    load_chat_history (py "2026-01-02T10:00:00")
      (HistoryJson (JArray legacy_history)) = Loaded data' /\
    map entry_conversation_id data'
    = [Some (JString (py "20251103T1405"));
       Some (JString (py "20260101_090000"))].
Proof.
  destruct (load_chat_history_migrates (py "2026-01-02T10:00:00")
              legacy_history) as (data' & Hload & _ & _).
  - repeat constructor.
  - exists data'. split; [exact Hload |].
    assert (Hc : load_chat_history (py "2026-01-02T10:00:00")
                   (HistoryJson (JArray legacy_history))
                 = Loaded
                     (match load_chat_history (py "2026-01-02T10:00:00")
                              (HistoryJson (JArray legacy_history)) with
                      | Loaded d => d
                      | Crashed => []
                      end)) by reflexivity.
    rewrite Hload in Hc at 1. injection Hc as ->. vm_compute. reflexivity.
Defined.


(** ** The sections of a corpus, read back *)

Lemma split_char_cons (sep : N) (s : pystr) :
  exists first rest, split_char sep s = first :: rest.
Proof.
  destruct s as [|c s]; simpl; [eauto |].
  destruct (c =? sep)%N; [eauto |].
  destruct (split_char sep s); eauto.
Qed.

Lemma join_cons_char (sep : pystr) (c : N) (w : pystr) (ws : list pystr) :
  join sep ((c :: w) :: ws) = c :: join sep (w :: ws).
Proof. destruct ws; reflexivity. Qed.

Lemma join_split (s : pystr) : join [NL] (split_char NL s) = s.
Proof.
  induction s as [|c s IH]; [reflexivity |].
  simpl split_char. destruct (N.eqb_spec c NL) as [-> | Hc].
  - destruct (split_char_cons NL s) as (first & rest & E).
    rewrite E in *.
    change (join [NL] ([] :: first :: rest))
      with ([] ++ [NL] ++ join [NL] (first :: rest)).
    rewrite IH. reflexivity.
  - destruct (split_char_cons NL s) as (first & rest & E).
    rewrite E in *. rewrite join_cons_char, IH. reflexivity.
Qed.

Lemma join_snoc (sep : pystr) (xs : list pystr) (y : pystr) :
  xs <> [] -> join sep (xs ++ [y]) = join sep xs ++ sep ++ y.
Proof.
  induction xs as [|x xs IH]; [contradiction |]. intros _.
  destruct xs as [|x' xs']; [reflexivity |].
  change ((x :: x' :: xs') ++ [y]) with (x :: ((x' :: xs') ++ [y])).
  cbn [join app]. cbn [join app] in IH. rewrite IH by discriminate.
  rewrite <- !app_assoc. reflexivity.
Qed.

Lemma join_last_app (sep : pystr) (xs : list pystr) (a b : pystr) :
  join sep (xs ++ [a ++ b]) = join sep (xs ++ [a]) ++ b.
Proof.
  induction xs as [|x xs IH]; [reflexivity |].
  destruct xs as [|x' xs'].
  - simpl. rewrite <- !app_assoc. reflexivity.
  - change ((x :: x' :: xs') ++ [a ++ b])
      with (x :: ((x' :: xs') ++ [a ++ b])).
    change ((x :: x' :: xs') ++ [a]) with (x :: ((x' :: xs') ++ [a])).
    cbn [join app]. cbn [join app] in IH. rewrite IH.
    rewrite <- !app_assoc. reflexivity.
Qed.

Lemma dict_set_fresh (d : list (pystr * pystr)) (k v : pystr) :
  ~ In k (map fst d) ->
  map fst (dict_set d k v) = map fst d ++ [k] /\
  map snd (dict_set d k v) = map snd d ++ [v].
Proof.
  induction d as [|[k' v'] d IH]; intros Hfresh; [split; reflexivity |].
  simpl in *. destruct (str_eqb k' k) eqn:E.
  - apply str_eqb_eq in E. tauto.
  - destruct IH as [IH1 IH2]; [tauto |]. simpl. rewrite IH1, IH2.
    split; reflexivity.
Qed.

Lemma lstrip_keeps (s : pystr) (c : N) :
  In c s -> isspace c = false -> In c (lstrip s).
Proof.
  induction s as [|x s IH]; [contradiction |]. intros [-> | Hin] Hc; simpl.
  - rewrite Hc. left. reflexivity.
  - destruct (isspace x); [auto | right; exact Hin].
Qed.

Lemma strip_keeps (s : pystr) (c : N) :
  In c s -> isspace c = false -> In c (strip s).
Proof.
  intros Hin Hc. unfold strip, rstrip.
  apply in_rev. rewrite rev_involutive. apply lstrip_keeps; [| exact Hc].
  apply in_rev. rewrite rev_involutive. apply lstrip_keeps; assumption.
Qed.

(** The label of a header line is never empty. *)
Lemma header_label_truthy (line label : pystr) :
  startswith (py "SECTION ") line = true ->
  header_label line = Ok label ->
  label <> [].
Proof.
  intros Hstart Hlabel. apply startswith_prefix in Hstart as [after ->].
  unfold header_label in Hlabel.
  destruct (contains (py ":") (py "SECTION " ++ after)).
  - change (py "SECTION " ++ after)
      with (83%N :: (py "ECTION " ++ after)) in Hlabel.
    cbn [split_char] in Hlabel. change (83 =? 58)%N with false in Hlabel.
    cbv iota in Hlabel.
    assert (Hin : forall w, In 83%N (strip (83%N :: w))).
    { intros w. apply strip_keeps; [left; reflexivity | reflexivity]. }
    destruct (split_char 58 (py "ECTION " ++ after)) as [|w ws];
      injection Hlabel as <-; intros E;
      [specialize (Hin []) | specialize (Hin w)];
      rewrite E in Hin; destruct Hin.
  - destruct (nth_error _ 0) as [w0 |]; [| discriminate].
    destruct (nth_error _ 1) as [w1 |]; [| discriminate].
    injection Hlabel as <-. intros E.
    apply (f_equal (@length N)) in E. rewrite !length_app in E.
    simpl in E. lia.
Qed.

Lemma labels_of_app (a b : list pystr) :
  labels_of (a ++ b) = labels_of a ++ labels_of b.
Proof. unfold labels_of. rewrite List.filter_app, map_app. reflexivity. Qed.

Lemma fresh_label (ks : list pystr) (l : pystr)
    (more : list (result pystr)) :
  NoDup (map Ok (ks ++ [l]) ++ more) -> ~ In l ks.
Proof.
  rewrite map_app. intros Hnodup Hin.
  apply NoDup_app in Hnodup as (Hnodup & _ & _).
  apply NoDup_app in Hnodup as (_ & Hsep & _).
  apply (Hsep (Ok l)).
  - apply list_elem_of_In, in_map, Hin.
  - simpl. left.
Qed.

Lemma labels_of_header (x : pystr) :
  startswith (py "SECTION ") x = true -> labels_of [x] = [header_label x].
Proof. intros H. unfold labels_of. cbn [List.filter]. rewrite H. reflexivity. Qed.

Lemma labels_of_other (x : pystr) :
  startswith (py "SECTION ") x = false -> labels_of [x] = [].
Proof. intros H. unfold labels_of. cbn [List.filter]. rewrite H. reflexivity. Qed.

(** The loop over the lines, from a state with a section open. *)
Lemma parse_lines_round_trip (lines : list pystr) :
  forall (d : list (pystr * pystr)) (l : pystr) (c processed : list pystr)
         (st' : parse_state),
    l <> [] -> c <> [] -> processed <> [] ->
    join [NL] (map snd d ++ [join [NL] c]) = join [NL] processed ->
    map Ok (map fst d ++ [l]) = labels_of processed ->
    NoDup (labels_of (processed ++ lines)) ->
    parse_lines (mk_parse_state d (Some l) c) lines = Ok st' ->
    exists d' l' c',
      st' = mk_parse_state d' (Some l') c' /\ l' <> [] /\ c' <> [] /\
      join [NL] (map snd d' ++ [join [NL] c'])
      = join [NL] (processed ++ lines) /\
      map Ok (map fst d' ++ [l']) = labels_of (processed ++ lines).
Proof.
  induction lines as [|x lines IH];
    intros d l c processed st' Hl Hc Hp Hjoin Hlabels Hnodup Hparse.
  - injection Hparse as <-. rewrite app_nil_r. eauto 10.
  - cbn [parse_lines] in Hparse. unfold parse_line in Hparse.
    replace (processed ++ x :: lines) with ((processed ++ [x]) ++ lines)
      in * by (rewrite <- app_assoc; reflexivity).
    destruct (startswith (py "SECTION ") x) eqn:Hx.
    + (* a header line: the open section is saved, another opens *)
      destruct (header_label x) as [l2 |] eqn:Hl2; [| discriminate].
      cbn [rbind] in Hparse.
      assert (Hfresh : ~ In l (map fst d)).
      { rewrite !labels_of_app, <- Hlabels, <- app_assoc in Hnodup.
        exact (fresh_label _ _ _ Hnodup). }
      unfold save_section in Hparse. cbn [current_section] in Hparse.
      destruct l as [|l0 lr]; [contradiction |].
      cbn [truthy sections_dict current_content] in Hparse.
      destruct (dict_set_fresh d (l0 :: lr) (join [NL] c) Hfresh)
        as [Hk Hv].
      apply (IH (dict_set d (l0 :: lr) (join [NL] c)) l2 [x]
               (processed ++ [x]) st'); [| | | | | exact Hnodup | exact Hparse].
      * eapply header_label_truthy; eassumption.
      * discriminate.
      * destruct processed; discriminate.
      * rewrite Hv. cbn [join].
        rewrite (join_snoc [NL] (map snd d ++ [join [NL] c]) x)
          by (destruct (map snd d); discriminate).
        rewrite Hjoin, join_snoc by exact Hp. reflexivity.
      * rewrite Hk, labels_of_app, <- Hlabels, !map_app.
        rewrite (labels_of_header x Hx), Hl2. reflexivity.
    + (* another line of the open section *)
      cbn [current_section truthy_opt] in Hparse.
      destruct l as [|l0 lr]; [contradiction |].
      cbn [truthy sections_dict current_content] in Hparse.
      apply (IH d (l0 :: lr) (c ++ [x]) (processed ++ [x]) st');
        [| | | | | exact Hnodup | exact Hparse].
      * discriminate.
      * destruct c; discriminate.
      * destruct processed; discriminate.
      * rewrite (join_snoc [NL] c x Hc).
        rewrite join_last_app, Hjoin, (join_snoc [NL] processed x Hp).
        reflexivity.
      * rewrite labels_of_app, <- Hlabels, (labels_of_other x Hx).
        rewrite app_nil_r. reflexivity.
Qed.

Lemma split_char_startswith (p : pystr) :
  Forall (fun c => c <> NL) p ->
  forall s,
    startswith p s = true ->
    exists first rest,
      split_char NL s = first :: rest /\ startswith p first = true.
Proof.
  induction 1 as [|x p Hx Hp IH]; intros s Hs.
  - destruct (split_char_cons NL s) as (first & rest & E). eauto.
  - destruct s as [|y s]; [discriminate |]. simpl in Hs.
    apply andb_true_iff in Hs as [Hxy Hs]. apply N.eqb_eq in Hxy. subst y.
    destruct (IH s Hs) as (first & rest & E & Hfirst).
    simpl. destruct (N.eqb_spec x NL); [contradiction |].
    rewrite E. exists (x :: first), rest. split; [reflexivity |].
    simpl. rewrite N.eqb_refl. exact Hfirst.
Qed.

(** X29. A corpus that starts with a header line and whose header lines
    carry labels that are all different is cut into sections without
    loss: the contents of the sections, joined by line feeds in the
    order of the dict, give back the corpus, and the keys of the dict
    are the labels of the header lines, in the order of the corpus. *)
Theorem parse_sections_round_trip (full_context : pystr)
    (sections : list (pystr * pystr)) :
  parse_sections full_context = Ok sections ->
  startswith (py "SECTION ") full_context = true ->
  NoDup (header_labels full_context) ->
  join [NL] (map snd sections) = full_context /\
  map Ok (map fst sections) = header_labels full_context.
Proof.
  unfold parse_sections, header_labels. intros Hparse Hstart Hnodup.
  destruct (split_char_startswith (py "SECTION ")
              ltac:(repeat constructor; discriminate) full_context Hstart)
    as (first & rest & Hsplit & Hfirst).
  pose proof (join_split full_context) as Hback.
  rewrite Hsplit in *.
  cbn [parse_lines] in Hparse. unfold parse_line in Hparse.
  rewrite Hfirst in Hparse.
  destruct (header_label first) as [l1 |] eqn:Hl1; [| discriminate].
  cbn [rbind save_section current_section sections_dict] in Hparse.
  destruct (parse_lines (mk_parse_state [] (Some l1) [first]) rest)
    as [st' |] eqn:Hrest; [| discriminate].
  cbn [rbind] in Hparse.
  assert (Hl1' : l1 <> []) by (eapply header_label_truthy; eassumption).
  assert (Hone : [first] <> []) by discriminate.
  assert (Hlab1 : map Ok (map fst (@nil (pystr * pystr)) ++ [l1])
                  = labels_of [first])
    by (rewrite (labels_of_header first Hfirst), Hl1; reflexivity).
  destruct (parse_lines_round_trip rest [] l1 [first] [first] st'
              Hl1' Hone Hone eq_refl Hlab1 Hnodup Hrest)
    as (d' & l' & c' & -> & Hl' & Hc' & Hjoin & Hlabels).
  cbn [current_section current_content sections_dict truthy_opt]
    in Hparse.
  destruct l' as [|a l'']; [contradiction |].
  destruct c' as [|b c'']; [contradiction |].
  cbn [truthy andb] in Hparse. injection Hparse as <-.
  assert (Hfresh : ~ In (a :: l'') (map fst d')).
  { change ([first] ++ rest) with (first :: rest) in Hlabels.
    rewrite <- Hlabels, <- (app_nil_r (map Ok _)) in Hnodup.
    exact (fresh_label _ _ _ Hnodup). }
  destruct (dict_set_fresh d' (a :: l'') (join [NL] (b :: c'')) Hfresh)
    as [Hk Hv].
  change (join [NL] (map snd (dict_set d' (a :: l'') (join [NL] (b :: c''))))
          = full_context /\
          map Ok (map fst (dict_set d' (a :: l'') (join [NL] (b :: c''))))
          = labels_of (first :: rest)).
  rewrite Hk, Hv. split.
  - rewrite Hjoin. exact Hback.
  - exact Hlabels.
Qed.

Lemma parse_sections_round_trip_witness :
  exists sections,
    parse_sections small_corpus = Ok sections /\
    join [NL] (map snd sections) = small_corpus.
Proof.
  destruct (parse_sections small_corpus) as [sections |] eqn:E;
    [| vm_compute in E; discriminate].
  exists sections. split; [reflexivity |].
  apply (parse_sections_round_trip small_corpus sections E).
  - reflexivity.
  - assert (H : header_labels small_corpus
                = [Ok (py "SECTION 1"); Ok (py "SECTION 4")])
      by (vm_compute; reflexivity).
    rewrite H. apply NoDup_cons_2; [| apply NoDup_singleton].
    rewrite list_elem_of_In. intros [Heq | []].
    injection Heq as Heq. vm_compute in Heq. discriminate.
Defined.
